(** * Connector examples of the Fivetran connector SDK: a shallow embedding

    The development embeds the Python sources

      - [examples/multiple_code_files/timestamp_serializer.py]
      - [examples/multiple_code_files/connector.py]
      - [examples/local/connector.py]
      - [examples/key_based_replication/connector.py]

    together with the part of the Python standard library they call
    ([datetime.strptime], [datetime.isoformat], [datetime.strftime]).

    Conventions.
      - A Python [str] is a [string]; its characters are read as the code
        points 0..255, so the only decimal digits are ['0'..'9'].
      - A [dict] with string keys is a [gmap string _].
      - A raised exception is the left injection of a sum.
      - A generator is run to exhaustion: the operations it yielded, in
        order, then either normal exhaustion or the exception that ended
        it, then the content of the objects it shares with its caller. *)

From Stdlib Require Import String Ascii ZArith List Lia DecimalString.
From stdpp Require Import base gmap strings list.

Open Scope Z_scope.

(** ** Python values and exceptions *)

Module Py.

(** The scalar values a state mapping or a row holds.  Floats and nested
    containers do not occur in the connectors and are left out. *)
Inductive value : Type :=
| VNone
| VBool (b : bool)
| VInt (z : Z)
| VStr (s : string).

Inductive exn : Type :=
| ValueError (msg : string)
| IndexError (msg : string)
| TypeError (msg : string)
| DatabaseError (msg : string).

Definition result (A : Type) : Type := (exn + A)%type.

(** The largest [Py_ssize_t] of a 64-bit build: the bound of an integer
    used as an index. *)
Definition PY_SSIZE_T_MAX : Z := 2 ^ 63 - 1.

(** The line feed and the double quote, as strings. *)
Definition nl : string := String "010" EmptyString.
Definition dq : string := String "034" EmptyString.

(** The decimal digits of a natural number. *)
Definition digits (n : N) : string :=
  NilEmpty.string_of_uint (N.to_uint n).

(** [str(z)] for an integer. *)
Definition str_int (z : Z) : string :=
  if (z <? 0)%Z then "-" +:+ digits (Z.abs_N z) else digits (Z.abs_N z).

(** What an f-string field [{v}] inserts: [format(v, '')], which is
    [str(v)] for these types. *)
Definition str (v : value) : string :=
  match v with
  | VNone => "None"
  | VBool true => "True"
  | VBool false => "False"
  | VInt z => str_int z
  | VStr s => s
  end.

Fixpoint zeros (k : nat) (s : string) : string :=
  match k with
  | O => s
  | S k' => String "0" (zeros k' s)
  end.

(** ["%0<w>d" % z]: the sign, then zeros up to width [w], then the
    digits. *)
Definition zfill (w : nat) (z : Z) : string :=
  let s := digits (Z.abs_N z) in
  if (z <? 0)%Z then "-" +:+ zeros (w - 1 - String.length s) s
  else zeros (w - String.length s) s.

(** [c.isdecimal()], and the digit's value. *)
Definition digit_value (c : ascii) : option Z :=
  let n := nat_of_ascii c in
  if (48 <=? n)%nat && (n <=? 57)%nat then Some (Z.of_nat (n - 48)) else None.

Definition isdecimal (c : ascii) : bool :=
  match digit_value c with Some _ => true | None => false end.

(** [c.isspace()] on code points below 256: TAB..CR, FS..US, SPACE,
    NEL and NBSP. *)
Definition isspace (c : ascii) : bool :=
  let n := nat_of_ascii c in
  ((9 <=? n)%nat && (n <=? 13)%nat) || ((28 <=? n)%nat && (n <=? 32)%nat)
  || (n =? 133)%nat || (n =? 160)%nat.

(** [c.lower()] on ASCII letters (what [re.IGNORECASE] compares). *)
Definition lower (c : ascii) : ascii :=
  let n := nat_of_ascii c in
  if (65 <=? n)%nat && (n <=? 90)%nat then ascii_of_nat (n + 32) else c.

Fixpoint lstrip (s : string) : string :=
  match s with
  | String c s' => if isspace c then lstrip s' else s
  | EmptyString => s
  end.

Fixpoint digits_acc (acc : Z) (s : string) : option Z :=
  match s with
  | EmptyString => Some acc
  | String c s' =>
      match digit_value c with
      | Some d => digits_acc (10 * acc + d) s'
      | None => None
      end
  end.

(** [int(s)] on an unsigned decimal literal, leading white space
    allowed; [None] stands for the [ValueError] of [int]. *)
Definition int (s : string) : option Z :=
  match lstrip s with
  | EmptyString => None
  | t => digits_acc 0 t
  end.

End Py.

(** ** The standard library's [datetime] *)

Module datetime.

Import Py.

Record t : Type := mk {
  year : Z; month : Z; day : Z;
  hour : Z; minute : Z; second : Z;
  microsecond : Z
}.

Definition MINYEAR : Z := 1.
Definition MAXYEAR : Z := 9999.

Definition _is_leap (year : Z) : bool :=
  (year mod 4 =? 0) && (negb (year mod 100 =? 0) || (year mod 400 =? 0)).

(** The table has a placeholder (here 0) at index 0. *)
Definition _DAYS_IN_MONTH : list Z :=
  [0; 31; 28; 31; 30; 31; 30; 31; 31; 30; 31; 30; 31].

Definition _days_in_month (year month : Z) : Z :=
  if (month =? 2) && _is_leap year then 29
  else nth (Z.to_nat month) _DAYS_IN_MONTH 0.

(** The month is checked before the table is read. *)
Definition _check_date_fields (year month day : Z) : bool :=
  (MINYEAR <=? year) && (year <=? MAXYEAR)
  && (1 <=? month) && (month <=? 12)
  && (1 <=? day) && (day <=? _days_in_month year month).

Definition _check_time_fields (hour minute second microsecond : Z) : bool :=
  (0 <=? hour) && (hour <=? 23) && (0 <=? minute) && (minute <=? 59)
  && (0 <=? second) && (second <=? 59)
  && (0 <=? microsecond) && (microsecond <=? 999999).

(** The constructor [datetime(year, month, day, hour, minute, second,
    microsecond)]; [None] stands for the [ValueError] it raises on a
    field out of range. *)
Definition new (year month day hour minute second microsecond : Z) : option t :=
  if _check_date_fields year month day
     && _check_time_fields hour minute second microsecond
  then Some (mk year month day hour minute second microsecond) else None.

(** *** Format strings compiled to regular expressions ([_strptime.TimeRE]) *)

Inductive cclass : Type :=
| Lit (c : ascii)          (* one escaped literal character *)
| Range (lo hi : ascii)    (* [lo-hi] *)
| AnyDigit.                (* \d *)

Definition cclass_match (k : cclass) (c : ascii) : bool :=
  match k with
  | Lit a => Ascii.eqb (lower a) (lower c)
  | Range lo hi =>
      (nat_of_ascii lo <=? nat_of_ascii c)%nat && (nat_of_ascii c <=? nat_of_ascii hi)%nat
  | AnyDigit => isdecimal c
  end.

Inductive atom : Type :=
| Chars (k : cclass)
| Spaces                                         (* \s+ *)
| Group (name : ascii) (alts : list (list cclass)).  (* (?P<name>a1|a2|...) *)

(** The entries of [TimeRE] for the six directives the formats of the
    connectors use, each a list of alternatives in the order of the regular
    expression.  The other directives of Python ([%f], [%z], [%y], ...)
    are outside the model: on a format that has one, [strptime] below says
    nothing about the code, and no property is stated for such a format. *)
Definition directive (c : ascii) : option (list (list cclass)) :=
  if Ascii.eqb c "Y" then
    Some [[AnyDigit; AnyDigit; AnyDigit; AnyDigit]]
  else if Ascii.eqb c "m" then
    Some [[Lit "1"; Range "0" "2"]; [Lit "0"; Range "1" "9"]; [Range "1" "9"]]
  else if Ascii.eqb c "d" then
    Some [[Lit "3"; Range "0" "1"]; [Range "1" "2"; AnyDigit];
          [Lit "0"; Range "1" "9"]; [Range "1" "9"]; [Lit " "; Range "1" "9"]]
  else if Ascii.eqb c "H" then
    Some [[Lit "2"; Range "0" "3"]; [Range "0" "1"; AnyDigit]; [AnyDigit]]
  else if Ascii.eqb c "M" then
    Some [[Range "0" "5"; AnyDigit]; [AnyDigit]]
  else if Ascii.eqb c "S" then
    Some [[Lit "6"; Range "0" "1"]; [Range "0" "5"; AnyDigit]; [AnyDigit]]
  else None.

(** [TimeRE.pattern]: a run of white space becomes [\s+], [%c] becomes
    the group of directive [c], any other character stands for itself.
    [None] stands for the [ValueError] of a bad or stray directive. *)
Fixpoint pattern (after_space : bool) (format : string) : option (list atom) :=
  match format with
  | EmptyString => Some []
  | String c rest =>
      if isspace c then
        if after_space then pattern true rest
        else option_map (cons Spaces) (pattern true rest)
      else if Ascii.eqb c "%" then
        match rest with
        | EmptyString => None
        | String d rest' =>
            match directive d, pattern false rest' with
            | Some alts, Some p => Some (Group d alts :: p)
            | _, _ => None
            end
        end
      else option_map (cons (Chars (Lit c))) (pattern false rest)
  end.

(** *** Backtracking matcher: every way to match, in the order the
    regular-expression engine tries them. *)

Fixpoint match_seq (ks : list cclass) (s : string) : option (string * string) :=
  match ks with
  | [] => Some (EmptyString, s)
  | k :: ks' =>
      match s with
      | String c s' =>
          if cclass_match k c then
            match match_seq ks' s' with
            | Some (txt, r) => Some (String c txt, r)
            | None => None
            end
          else None
      | EmptyString => None
      end
  end.

Fixpoint match_alts (alts : list (list cclass)) (s : string) : list (string * string) :=
  match alts with
  | [] => []
  | a :: alts' =>
      match match_seq a s with
      | Some m => m :: match_alts alts' s
      | None => match_alts alts' s
      end
  end.

(** [\s+] is greedy: the longest run first, then shorter ones. *)
Fixpoint match_spaces (s : string) : list string :=
  match s with
  | String c s' => if isspace c then (match_spaces s' ++ [s'])%list else []
  | EmptyString => []
  end.

Definition groupdict : Type := list (ascii * string).

Fixpoint match_atoms (p : list atom) (s : string) (found : groupdict)
  : list (groupdict * string) :=
  match p with
  | [] => [(found, s)]
  | Chars k :: p' =>
      match s with
      | String c s' => if cclass_match k c then match_atoms p' s' found else []
      | EmptyString => []
      end
  | Spaces :: p' =>
      flat_map (fun r => match_atoms p' r found) (match_spaces s)
  | Group name alts :: p' =>
      flat_map (fun m => match_atoms p' (snd m) ((name, fst m) :: found))
               (match_alts alts s)
  end.

(** [format_regex.match(data_string)]: the first match, anchored at the
    start of the string. *)
Definition re_match (p : list atom) (s : string) : option (groupdict * string) :=
  head (match_atoms p s []).

Fixpoint group (found : groupdict) (name : ascii) : option string :=
  match found with
  | [] => None
  | (n, txt) :: found' => if Ascii.eqb n name then Some txt else group found' name
  end.

(** The value of a directive's group, or its default when the format
    has no such directive. *)
Definition field (found : groupdict) (name : ascii) (default : Z) : option Z :=
  match group found name with
  | Some txt => int txt
  | None => Some default
  end.

(** [datetime.strptime(data_string, format)].  [None] stands for the
    [ValueError] that every failure of [strptime] raises: no match,
    unconverted data after the match, or field values that are no date
    or time of day. *)
Definition strptime (data_string format : string) : option t :=
  match pattern false format with
  | None => None
  | Some p =>
      match re_match p data_string with
      | None => None
      | Some (found, EmptyString) =>
          match field found "Y" 1900, field found "m" 1, field found "d" 1,
                field found "H" 0, field found "M" 0, field found "S" 0 with
          | Some year, Some month, Some day, Some hour, Some minute, Some second =>
              new year month day hour minute second 0
          | _, _, _, _, _, _ => None
          end
      | Some (_, String _ _) => None
      end
  end.





(** A datetime with a time zone: the fields are those of the local time
    of the zone, [utcoffset] is what the zone adds to UTC, in seconds. *)
Record aware : Type := Aware {
  fields : t;
  utcoffset : Z
}.



(** The objects the constructor returns. *)
Definition valid (dt : t) : Prop :=
  new (year dt) (month dt) (day dt) (hour dt) (minute dt) (second dt)
      (microsecond dt) = Some dt.

(** [dt.replace(microsecond=0)]. *)
Definition whole_second (dt : t) : t :=
  mk (year dt) (month dt) (day dt) (hour dt) (minute dt) (second dt) 0.

(** [dt.isoformat()] of a datetime without time zone. *)
Definition isoformat (dt : t) : string :=
  zfill 4 (year dt) +:+ "-" +:+ zfill 2 (month dt) +:+ "-" +:+ zfill 2 (day dt)
  +:+ "T" +:+ zfill 2 (hour dt) +:+ ":" +:+ zfill 2 (minute dt) +:+ ":"
  +:+ zfill 2 (second dt)
  +:+ (if (microsecond dt =? 0) then EmptyString else "." +:+ zfill 6 (microsecond dt)).

(** [dt.strftime(format)] for the directives [%Y %m %d %H %M %S], as the
    C library of Linux prints them: the year with the digits it has (999
    for the year 999, no padding), the others on two digits; any other
    character is copied.  None of these directives reads the time zone:
    on an aware datetime they print the fields of its local time. *)
Fixpoint strftime (dt : t) (format : string) : string :=
  match format with
  | EmptyString => EmptyString
  | String c rest =>
      if Ascii.eqb c "%" then
        match rest with
        | EmptyString => "%"
        | String d rest' =>
            (if Ascii.eqb d "Y" then str_int (year dt)
             else if Ascii.eqb d "m" then zfill 2 (month dt)
             else if Ascii.eqb d "d" then zfill 2 (day dt)
             else if Ascii.eqb d "H" then zfill 2 (hour dt)
             else if Ascii.eqb d "M" then zfill 2 (minute dt)
             else if Ascii.eqb d "S" then zfill 2 (second dt)
             else String c (String d EmptyString))
            +:+ strftime dt rest'
        end
      else String c (strftime dt rest)
  end.

End datetime.

(** ** [examples/multiple_code_files/timestamp_serializer.py] *)

Module TimestampSerializer.

Import Py.

(** The class object: its one attribute is the list of formats. *)
Record cls : Type := { TIMESTAMP_FORMATS : list string }.

(** The class as the module defines it. *)
Definition initial : cls :=
  {| TIMESTAMP_FORMATS := ["%Y/%m/%d %H:%M:%S"; "%Y-%m-%d %H:%M:%S"] |}.

(** The loop of [parse_timestamp] over the remaining formats. *)
Fixpoint parse_loop (formats : list string) (timestamp_str : string)
  : result datetime.t :=
  match formats with
  | [] => inl (ValueError ("Timestamp format not recognized: " +:+ timestamp_str))
  | fmt :: formats' =>
      match datetime.strptime timestamp_str fmt with
      | Some dt => inr dt
      | None => parse_loop formats' timestamp_str
      end
  end.

(** A class method takes the class object and returns it with its
    result. *)
Definition parse_timestamp (timestamp_str : string) (c : cls)
  : result datetime.t * cls :=
  (parse_loop (TIMESTAMP_FORMATS c) timestamp_str, c).

Definition serialize (timestamp : string) (c : cls) : result string * cls :=
  match parse_timestamp timestamp c with
  | (inr parsed_timestamp, c') =>
      let formatted_timestamp := datetime.isoformat parsed_timestamp in
      (inr formatted_timestamp, c')
  | (inl e, c') => (inl e, c')
  end.

End TimestampSerializer.

(** ** Operations and generators *)

Module Operations.

Import Py.

(** What a connector passes as [data] to [op.upsert]. *)
Inductive payload : Type :=
| Mapping (row : gmap string value)
| Scalar (v : value).

Inductive operation : Type :=
| upsert (table : string) (data : payload)
| checkpoint (state : gmap string value).

End Operations.

(** One table descriptor of the list a [schema] function returns. *)
Module Schema.

Record t : Type := {
  table : string;
  primary_key : list string;
  columns : gmap string string
}.

End Schema.

Module Gen.

Import Py Operations.

(** A generator body over a store of type [S]: the operations yielded,
    how the body ended, and the store it leaves. *)
Definition t (S A : Type) : Type := S -> list operation * result A * S.

Definition ret {S A} (a : A) : t S A := fun s => ([], inr a, s).

Definition bind {S A B} (m : t S A) (f : A -> t S B) : t S B :=
  fun s =>
    match m s with
    | (ops, inl e, s1) => (ops, inl e, s1)
    | (ops, inr a, s1) =>
        match f a s1 with
        | (ops', r, s2) => ((ops ++ ops')%list, r, s2)
        end
    end.

Definition yield {S} (o : operation) : t S unit := fun s => ([o], inr tt, s).

Definition raise {S A} (e : exn) : t S A := fun s => ([], inl e, s).

Definition get {S} : t S S := fun s => ([], inr s, s).

Definition modify {S} (f : S -> S) : t S unit := fun s => ([], inr tt, f s).

(** A call that yields nothing: it may raise and may change the store. *)
Definition call {S A} (f : S -> result A * S) : t S A :=
  fun s => match f s with (r, s') => ([], r, s') end.

Definition of_result {S A} (r : result A) : t S A := fun s => ([], r, s).

(** The operations of a finished run, and its end. *)
Definition yielded {S A} (run : list operation * result A * S) : list operation :=
  fst (fst run).
Definition outcome {S A} (run : list operation * result A * S) : result A :=
  snd (fst run).
Definition store {S A} (run : list operation * result A * S) : S := snd run.

End Gen.

Declare Scope gen_scope.
Delimit Scope gen_scope with gen.
Notation "'let*' x ':=' m 'in' k" := (Gen.bind m (fun x => k))
  (at level 10, x name, m at level 100, k at level 200, only parsing) : gen_scope.

(** ** [examples/multiple_code_files/connector.py] *)

Module multiple_code_files.

Import Py Operations.

(** The first triple-quoted literal of [update]. *)
Definition input_json_1 : string :=
  nl +:+
  "        {" +:+ nl +:+
  "            " +:+ dq +:+ "name" +:+ dq +:+ ": " +:+ dq +:+ "Event1" +:+ dq +:+ "," +:+ nl +:+
  "            " +:+ dq +:+ "timestamp" +:+ dq +:+ ": "
                 +:+ dq +:+ "2024/09/24 14:30:45" +:+ dq +:+ nl +:+
  "        }" +:+ nl +:+
  "        ".

(** The second one. *)
Definition input_json_2 : string :=
  nl +:+
  "            {" +:+ nl +:+
  "                " +:+ dq +:+ "name" +:+ dq +:+ ": " +:+ dq +:+ "Event2" +:+ dq +:+ "," +:+ nl +:+
  "                " +:+ dq +:+ "timestamp" +:+ dq +:+ ": "
                     +:+ dq +:+ "2024-09-24 10:30:45" +:+ dq +:+ nl +:+
  "            }" +:+ nl +:+
  "            ".

(** The store is the class object of [TimestampSerializer]: [serializer]
    is an instance, and both methods are class methods. *)
Definition update (configuration state : gmap string value)
  : Gen.t TimestampSerializer.cls unit :=
  (let input_json := input_json_1 in
   let* data := Gen.call (TimestampSerializer.serialize input_json) in
   let* _ := Gen.yield (upsert "event" (Scalar (VStr data))) in
   let input_json := input_json_2 in
   let* data := Gen.call (TimestampSerializer.serialize input_json) in
   Gen.yield (upsert "event" (Scalar (VStr data))))%gen.

Definition schema (configuration : gmap string value) : list Schema.t :=
  [ {| Schema.table := "event";
       Schema.primary_key := ["name"];
       Schema.columns := {[ "name" := "STRING"; "timestamp" := "UTC_DATETIME" ]} |} ].

End multiple_code_files.

(** ** [examples/local/connector.py] *)

Module local.

Import Py Operations.

Definition SOURCE_DATA : list (gmap string value) :=
  [ {[ "id" := VInt 10; "message" := VStr "Hello world" ]};
    {[ "id" := VInt 20; "message" := VStr "Hello again" ]};
    {[ "id" := VInt 30; "message" := VStr "Good bye" ]} ].

(** [l[i]]: an integer index (a [bool] is one) is first converted to an
    index-sized integer, which fails on an integer that does not fit;
    negative ones are then counted from the end. *)
Definition getitem {A} (l : list A) (i : value) : result A :=
  let at_ (z : Z) : result A :=
    if (z <? - PY_SSIZE_T_MAX - 1) || (PY_SSIZE_T_MAX <? z) then
      inl (IndexError "cannot fit 'int' into an index-sized integer")
    else
    let n := Z.of_nat (length l) in
    let j := if z <? 0 then z + n else z in
    if (0 <=? j) && (j <? n) then
      match l !! Z.to_nat j with
      | Some x => inr x
      | None => inl (IndexError "list index out of range")
      end
    else inl (IndexError "list index out of range") in
  match i with
  | VInt z => at_ z
  | VBool b => at_ (if b then 1 else 0)
  | VStr _ => inl (TypeError "list indices must be integers or slices, not str")
  | VNone => inl (TypeError "list indices must be integers or slices, not NoneType")
  end.

(** [v + 1]. *)
Definition add1 (v : value) : result value :=
  match v with
  | VInt z => inr (VInt (z + 1))
  | VBool b => inr (VInt ((if b then 1 else 0) + 1))
  | VStr _ =>
      inl (TypeError ("can only concatenate str (not " +:+ dq +:+ "int" +:+ dq
                      +:+ ") to str"))
  | VNone => inl (TypeError "unsupported operand type(s) for +: 'NoneType' and 'int'")
  end.

(** The store is the dict the caller passed as [state].  The two
    [log.fine] calls only format a message for the log of the SDK and
    are left out. *)
Definition update (configuration : gmap string value)
  : Gen.t (gmap string value) unit :=
  (let* state := Gen.get in
   let cursor := match state !! "cursor" with Some v => v | None => VInt 0 end in
   let* row := Gen.of_result (getitem SOURCE_DATA cursor) in
   let* _ := Gen.yield (upsert "hello_world" (Mapping row)) in
   let* next := Gen.of_result (add1 cursor) in
   let new_state : gmap string value := {[ "cursor" := next ]} in
   Gen.yield (checkpoint new_state))%gen.

Definition schema (configuration : gmap string value) : list Schema.t :=
  [ {| Schema.table := "hello_world";
       Schema.primary_key := ["id"];
       Schema.columns := {[ "message" := "STRING" ]} |} ].

End local.

(** ** [examples/key_based_replication/connector.py] *)

Module key_based_replication.

Import Py Operations.

Definition timestamp_format : string := "%Y-%m-%dT%H:%M:%SZ".

Definition dt2str (incoming : datetime.aware) : string :=
  datetime.strftime (datetime.fields incoming) timestamp_format.

(** One tuple of [fetchall()]: the five selected columns.  The last one,
    of a [TIMESTAMP WITH TIME ZONE] column, is an aware datetime in the
    time zone of the database session. *)
Record row : Type := {
  row0 : value; row1 : value; row2 : value; row3 : value;
  row4 : datetime.aware
}.

Definition default_last_synced : string := "2024-01-01T00:00:00Z".

Definition time_based_column : string := "updated_at".

Definition query (last_synced : value) : string :=
  "SELECT customer_id, first_name, last_name, email, updated_at FROM customers WHERE "
  +:+ time_based_column +:+ " > " +:+ "'" +:+ str last_synced +:+ "' ORDER BY "
  +:+ time_based_column.

Definition upsert_of (r : row) : operation :=
  upsert "customers"
    (Mapping {[ "customer_id" := row0 r;
                "first_name" := row1 r;
                "last_name" := row2 r;
                "email" := row3 r;
                "updated_at" := VStr (dt2str (row4 r)) ]}).

(** The [for] loop of [update]; it returns the last value assigned to
    the local variable [last_synced]. *)
Fixpoint for_rows {S} (result : list row) (last_synced : value) : Gen.t S value :=
  match result with
  | [] => Gen.ret last_synced
  | r :: result' =>
      (let* _ := Gen.yield (upsert_of r) in
       let last_synced := VStr (dt2str (row4 r)) in
       for_rows result' last_synced)%gen
  end.

Section Update.

(** The database is outside the program: [fetchall q] is what
    [duckdb.connect("source_warehouse.db", read_only=True)
    .execute(q).fetchall()] gives, rows or an exception. *)
Variable fetchall : string -> result (list row).

(** The store is the dict the caller passed as [state].  The
    [log.fine] call is left out. *)
Definition update (configuration : gmap string value)
  : Gen.t (gmap string value) unit :=
  (let* state := Gen.get in
   let last_synced :=
     match state !! "last_synced" with
     | Some v => v
     | None => VStr default_last_synced
     end in
   let* result := Gen.of_result (fetchall (query last_synced)) in
   let* last_synced := for_rows result last_synced in
   let* _ := Gen.modify (insert "last_synced" last_synced) in
   let* state := Gen.get in
   Gen.yield (checkpoint state))%gen.

End Update.

Definition schema (configuration : gmap string value) : list Schema.t :=
  [ {| Schema.table := "customers";
       Schema.primary_key := ["customer_id"];
       Schema.columns :=
         {[ "customer_id" := "INT";
            "first_name" := "STRING";
            "last_name" := "STRING";
            "email" := "STRING";
            "updated_at" := "UTC_DATETIME" ]} |} ].

End key_based_replication.

(** ** [examples/records_with_no_created_at_timestamp/connector.py] *)

Module records_with_no_created_at_timestamp.

Import Py Operations.

Definition schema (configuration : gmap string value) : list Schema.t :=
  [ {| Schema.table := "user";
       Schema.primary_key := ["id"; "updated_at"];
       Schema.columns :=
         {[ "id" := "INT";
            "first_name" := "STRING";
            "last_name" := "STRING";
            "updated_at" := "UTC_DATETIME" ]} |} ].

Definition row_1 : gmap string value :=
  {[ "id" := VInt 123;
     "first_name" := VStr "John";
     "last_name" := VStr "Doe";
     "designation" := VStr "Manager";
     "updated_at" := VStr "2007-12-03T10:15:30Z" ]}.

Definition row_2 : gmap string value :=
  {[ "id" := VInt 456;
     "first_name" := VStr "Jane";
     "last_name" := VStr "Dalton";
     "designation" := VStr "VP";
     "updated_at" := VStr "2008-11-12T00:00:20Z" ]}.

(** The store is the dict the caller passed as [state]; the body never
    reads it. *)
Definition update (configuration : gmap string value)
  : Gen.t (gmap string value) unit :=
  (let* _ := Gen.yield (upsert "user" (Mapping row_1)) in
   Gen.yield (upsert "user" (Mapping row_2)))%gen.

End records_with_no_created_at_timestamp.


(** ** Vocabulary of the properties *)

Import Py Operations.

(** The error of [parse_timestamp]. *)
Definition not_recognized (timestamp_str : string) : exn :=
  ValueError ("Timestamp format not recognized: " +:+ timestamp_str).

(** Field values that are a calendar date and a time of day. *)
Definition valid_fields (y m d H M S : Z) : Prop :=
  1 <= y <= 9999 /\ 1 <= m <= 12 /\ 1 <= d <= datetime._days_in_month y m
  /\ 0 <= H <= 23 /\ 0 <= M <= 59 /\ 0 <= S <= 59.

(** The text [YYYY<sep>MM<sep>DD HH:MM:SS] of the fields. *)
Definition timestamp_text (sep : string) (y m d H M S : Z) : string :=
  zfill 4 y +:+ sep +:+ zfill 2 m +:+ sep +:+ zfill 2 d +:+ " "
  +:+ zfill 2 H +:+ ":" +:+ zfill 2 M +:+ ":" +:+ zfill 2 S.

(** The ISO-8601 text [YYYY-MM-DDTHH:MM:SS] of the fields, without offset. *)
Definition iso_text (y m d H M S : Z) : string :=
  zfill 4 y +:+ "-" +:+ zfill 2 m +:+ "-" +:+ zfill 2 d +:+ "T"
  +:+ zfill 2 H +:+ ":" +:+ zfill 2 M +:+ ":" +:+ zfill 2 S.

(** The value of [state["last_synced"]] that [update] starts from. *)
Definition incoming_last_synced (state : gmap string value) : value :=
  match state !! "last_synced" with
  | Some v => v
  | None => VStr key_based_replication.default_last_synced
  end.

(** The value of the local variable [last_synced] after the loop over
    [rows]: the string form of the last row's [updated_at], or the
    incoming value when there is no row. *)
Definition final_last_synced (rows : list key_based_replication.row)
    (incoming : value) : value :=
  match last rows with
  | Some r => VStr (key_based_replication.dt2str (key_based_replication.row4 r))
  | None => incoming
  end.




(** The same test as [year_ok] for the unpadded year of [strftime]: from
    1000 on it is the padded one, below it has fewer than four digits. *)
Definition year_printed_ok (y : Z) : bool :=
  if 1000 <=? y then String.eqb (str_int y) (zfill 4 y)
  else (String.length (str_int y) <? 4)%nat.

(** A field [n] printed on [w] digits is read back by the group of its
    directive, whatever follows it, and does not start with white space. *)
Definition field_ok (name : ascii) (w : nat) (n : Z) : Prop :=
  forall alts rest,
    datetime.directive name = Some alts ->
    head (datetime.match_alts alts (zfill w n +:+ rest)) = Some (zfill w n, rest)
    /\ int (zfill w n) = Some n
    /\ datetime.match_spaces (zfill w n +:+ rest) = [].

(** The same for a year, as a test that can be run on every year. *)
Definition year_ok (y : Z) : bool :=
  match zfill 4 y with
  | String a (String b (String c (String d EmptyString))) =>
      isdecimal a && isdecimal b && isdecimal c && isdecimal d
      && match int (zfill 4 y) with Some v => v =? y | None => false end
  | _ => false
  end.

(** A non-empty run of white space. *)
Fixpoint all_space (s : string) : bool :=
  match s with
  | EmptyString => true
  | String c s' => isspace c && all_space s'
  end.

Definition white_space (ws : string) : Prop :=
  ws <> EmptyString /\ all_space ws = true.

(** A two-digit field written with its leading zero or without it. *)
Definition show (padded : bool) (n : Z) : string :=
  if padded then zfill 2 n else str_int n.

(** Field values that the regular expressions of the directives accept,
    whether or not they are a date. *)
Definition shaped_fields (y m d H M S : Z) : Prop :=
  0 <= y <= 9999 /\ 1 <= m <= 12 /\ 1 <= d <= 31
  /\ 0 <= H <= 23 /\ 0 <= M <= 59 /\ 0 <= S <= 59.

(** The keys of the primary key are keys of the row. *)
Definition has_primary_key (d : Schema.t) (row : gmap string value) : Prop :=
  Forall (fun k => is_Some (row !! k)) (Schema.primary_key d).

(** An operation fits a schema: an upsert names a declared table and its
    data is a row with the table's primary key. *)
Definition fits (sch : list Schema.t) (o : operation) : Prop :=
  match o with
  | upsert t (Mapping row) =>
      exists d, d ∈ sch /\ Schema.table d = t /\ has_primary_key d row
  | upsert _ (Scalar _) => False
  | checkpoint _ => True
  end.

(** The state of the last checkpoint among the operations of a run: what
    the next sync receives as [state]. *)
Fixpoint checkpointed (ops : list operation) (prior : gmap string value)
  : gmap string value :=
  match ops with
  | [] => prior
  | checkpoint st :: ops' => checkpointed ops' st
  | upsert _ _ :: ops' => checkpointed ops' prior
  end.

(** The state that [k] successive syncs of the local connector leave,
    each one started from the state the one before checkpointed; [None]
    when one of them raised. *)
Fixpoint local_syncs (configuration : gmap string value) (k : nat)
    (state : gmap string value) : option (gmap string value) :=
  match k with
  | O => Some state
  | S k' =>
      match local_syncs configuration k' state with
      | Some st =>
          let run := local.update configuration st in
          match Gen.outcome run with
          | inr _ => Some (checkpointed (Gen.yielded run) st)
          | inl _ => None
          end
      | None => None
      end
  end.

(** The text [YYYY<sep>MM<sep>DD<ws>HH:MM:SS<extra>]. *)
Definition stamp (sep ws : string) (y m d H M S : Z) (extra : string) : string :=
  zfill 4 y +:+ sep +:+ zfill 2 m +:+ sep +:+ zfill 2 d +:+ ws
  +:+ zfill 2 H +:+ ":" +:+ zfill 2 M +:+ ":" +:+ zfill 2 S +:+ extra.

(** The text [YYYY<sep>M<sep>D H:M:S] in which each field but the year is
    written with or without its leading zero. *)
Definition loose_text (sep : string) (pm pd pH pM pS : bool) (y m d H M S : Z)
  : string :=
  zfill 4 y +:+ sep +:+ show pm m +:+ sep +:+ show pd d +:+ " "
  +:+ show pH H +:+ ":" +:+ show pM M +:+ ":" +:+ show pS S.

(** A field written either way is read back by the group of its directive
    when the character [next] follows it. *)
Definition loose_ok (name : ascii) (next : ascii) (n : Z) : Prop :=
  forall padded alts rest,
    datetime.directive name = Some alts ->
    head (datetime.match_alts alts (show padded n +:+ String next rest))
    = Some (show padded n, String next rest)
    /\ int (show padded n) = Some n
    /\ datetime.match_spaces (show padded n +:+ String next rest) = [].

(** The same for the last field of the text. *)
Definition loose_last (name : ascii) (n : Z) : Prop :=
  forall padded alts,
    datetime.directive name = Some alts ->
    head (datetime.match_alts alts (show padded n)) = Some (show padded n, EmptyString)
    /\ int (show padded n) = Some n.

(** An operation fits a schema exactly: it fits, and the keys of an
    upserted row are the declared columns. *)
Definition fits_exactly (sch : list Schema.t) (o : operation) : Prop :=
  match o with
  | upsert t (Mapping row) =>
      exists d, d ∈ sch /\ Schema.table d = t /\ has_primary_key d row
                /\ dom row = dom (Schema.columns d)
  | upsert _ (Scalar _) => False
  | checkpoint _ => True
  end.

(** * Properties *)

(** ** The timestamp serializer: structure of [parse_timestamp] *)

Section ParseLoop.

Import TimestampSerializer.

(** The loop succeeds exactly with the first format that parses. *)
Lemma parse_loop_first formats s dt :
  parse_loop formats s = inr dt <->
  exists before fmt after,
    formats = (before ++ fmt :: after)%list
    /\ Forall (fun f => datetime.strptime s f = None) before
    /\ datetime.strptime s fmt = Some dt.
Proof.
  induction formats as [|f formats IH]; simpl.
  - split; [discriminate|].
    intros (before & fmt & after & E & _). by destruct before.
  - destruct (datetime.strptime s f) as [d|] eqn:Ef.
    + split.
      * intros [= <-]. exists [], f, formats. by repeat split.
      * intros (before & fmt & after & E & Hb & Hf).
        destruct before as [|b before]; simpl in E; injection E as -> ->.
        -- congruence.
        -- inversion Hb; congruence.
    + rewrite IH. split.
      * intros (before & fmt & after & -> & Hb & Hf).
        exists (f :: before), fmt, after. repeat split; auto.
      * intros (before & fmt & after & E & Hb & Hf).
        destruct before as [|b before]; simpl in E; injection E as -> ->.
        -- congruence.
        -- inversion Hb; subst. by exists before, fmt, after.
Qed.

(** The loop fails exactly when every format fails, and then with the
    error that carries the input. *)
Lemma parse_loop_error formats s e :
  parse_loop formats s = inl e <->
  Forall (fun f => datetime.strptime s f = None) formats /\ e = not_recognized s.
Proof.
  induction formats as [|f formats IH]; simpl.
  - unfold not_recognized. split.
    + intros [= <-]. auto.
    + intros [_ ->]. reflexivity.
  - destruct (datetime.strptime s f) as [d|] eqn:Ef.
    + split; [discriminate|]. intros [Hall _]. inversion Hall; congruence.
    + rewrite IH. split; intros [Hall ->]; split; auto.
      by inversion Hall.
Qed.

Lemma serialize_parse s c :
  serialize s c =
  (match parse_loop (TIMESTAMP_FORMATS c) s with
   | inr dt => inr (datetime.isoformat dt)
   | inl e => inl e
   end, c).
Proof.
  unfold serialize, parse_timestamp.
  by destruct (parse_loop (TIMESTAMP_FORMATS c) s).
Qed.

End ParseLoop.

(** C6: on ["2024/09/24 14:30:45"] [serialize] returns
    ["2024-09-24T14:30:45"], and on ["2024-09-24 10:30:45"] it returns
    ["2024-09-24T10:30:45"]. *)
Theorem serialize_scenarios :
  fst (TimestampSerializer.serialize "2024/09/24 14:30:45" TimestampSerializer.initial)
  = inr "2024-09-24T14:30:45"
  /\ fst (TimestampSerializer.serialize "2024-09-24 10:30:45" TimestampSerializer.initial)
     = inr "2024-09-24T10:30:45".
Proof. split; vm_compute; reflexivity. Qed.

(** C4: on ["2024-13-01 10:30:45"], whose month is 13, [serialize] raises
    the "format not recognized" error and returns no value. *)
Theorem serialize_invalid_month :
  fst (TimestampSerializer.serialize "2024-13-01 10:30:45" TimestampSerializer.initial)
  = inl (ValueError "Timestamp format not recognized: 2024-13-01 10:30:45")
  /\ (forall out,
        fst (TimestampSerializer.serialize "2024-13-01 10:30:45" TimestampSerializer.initial)
        <> inr out).
Proof.
  assert (E : fst (TimestampSerializer.serialize "2024-13-01 10:30:45"
                     TimestampSerializer.initial)
              = inl (ValueError "Timestamp format not recognized: 2024-13-01 10:30:45"))
    by (vm_compute; reflexivity).
  split; [exact E|]. intros out. rewrite E. discriminate.
Qed.

(** C5: [parse_timestamp] tries the formats in the order of the list,
    [%Y/%m/%d %H:%M:%S] and then [%Y-%m-%d %H:%M:%S]; it returns the
    parse of the first format that succeeds, and the result of the second
    format counts only when the first failed. *)
Theorem parse_timestamp_order (s : string) :
  TimestampSerializer.TIMESTAMP_FORMATS TimestampSerializer.initial
  = ["%Y/%m/%d %H:%M:%S"; "%Y-%m-%d %H:%M:%S"]
  /\ fst (TimestampSerializer.parse_timestamp s TimestampSerializer.initial)
     = match datetime.strptime s "%Y/%m/%d %H:%M:%S" with
       | Some dt => inr dt
       | None =>
           match datetime.strptime s "%Y-%m-%d %H:%M:%S" with
           | Some dt => inr dt
           | None => inl (not_recognized s)
           end
       end
  /\ (forall c dt,
        fst (TimestampSerializer.parse_timestamp s c) = inr dt <->
        exists before fmt after,
          TimestampSerializer.TIMESTAMP_FORMATS c = (before ++ fmt :: after)%list
          /\ Forall (fun f => datetime.strptime s f = None) before
          /\ datetime.strptime s fmt = Some dt).
Proof.
  split; [reflexivity|]. split; [reflexivity|].
  intros c dt. apply parse_loop_first.
Qed.

(** C3: [parse_timestamp], and with it [serialize], raises the "format
    not recognized" error, whose message ends with the input, if and only
    if both formats fail on the input; it returns a parsed value if and
    only if at least one of them succeeds.  The two strings the
    specification names match neither format. *)
Theorem parse_timestamp_error_iff (s : string) :
  let slash := datetime.strptime s "%Y/%m/%d %H:%M:%S" in
  let dash := datetime.strptime s "%Y-%m-%d %H:%M:%S" in
  let parsed := fst (TimestampSerializer.parse_timestamp s TimestampSerializer.initial) in
  let serialized := fst (TimestampSerializer.serialize s TimestampSerializer.initial) in
  let err := ValueError ("Timestamp format not recognized: " +:+ s) in
  (parsed = inl err <-> slash = None /\ dash = None)
  /\ (serialized = inl err <-> slash = None /\ dash = None)
  /\ ((exists dt, parsed = inr dt) <-> slash <> None \/ dash <> None)
  /\ ((exists out, serialized = inr out) <-> slash <> None \/ dash <> None)
  /\ (forall e, parsed = inl e \/ serialized = inl e -> e = err)
  /\ fst (TimestampSerializer.serialize "13/40/2024" TimestampSerializer.initial)
     = inl (ValueError "Timestamp format not recognized: 13/40/2024")
  /\ fst (TimestampSerializer.serialize "not-a-date" TimestampSerializer.initial)
     = inl (ValueError "Timestamp format not recognized: not-a-date").
Proof.
  intros slash dash parsed serialized err.
  assert (Ep : parsed = match slash with
                        | Some dt => inr dt
                        | None => match dash with
                                  | Some dt => inr dt
                                  | None => inl err
                                  end
                        end) by reflexivity.
  assert (Es : serialized = match parsed with
                            | inr dt => inr (datetime.isoformat dt)
                            | inl e => inl e
                            end).
  { unfold serialized, parsed. rewrite serialize_parse. reflexivity. }
  rewrite Es, Ep. clear Es Ep.
  destruct slash as [d1|], dash as [d2|]; repeat split;
    try (vm_compute; reflexivity); intros;
    repeat match goal with
      | H : _ /\ _ |- _ => destruct H
      | H : _ \/ _ |- _ => destruct H
      | H : ex _ |- _ => destruct H
      end;
    try discriminate; try congruence; eauto;
    try (left; discriminate); right; discriminate.
Qed.

(** C9: whatever the configuration and the state, the generator of
    [multiple_code_files] ends with the "format not recognized" error,
    raised on the first JSON document, before it yields anything. *)
Theorem multiple_code_files_update_raises (configuration state : gmap string value) :
  let run := multiple_code_files.update configuration state TimestampSerializer.initial in
  Gen.yielded run = []
  /\ Gen.outcome run
     = inl (ValueError ("Timestamp format not recognized: "
                        +:+ multiple_code_files.input_json_1))
  /\ datetime.strptime multiple_code_files.input_json_1 "%Y/%m/%d %H:%M:%S" = None
  /\ datetime.strptime multiple_code_files.input_json_1 "%Y-%m-%d %H:%M:%S" = None.
Proof. repeat split; vm_compute; reflexivity. Qed.

(** ** Parsing a formatted timestamp gives its fields back *)

Section Matching.

Import datetime.

Lemma Z_range_cases (P : Z -> Prop) (lo : Z) (k : nat) :
  (forall i : nat, (i < k)%nat -> P (lo + Z.of_nat i)) ->
  forall z, lo <= z < lo + Z.of_nat k -> P z.
Proof.
  intros H z Hz. replace z with (lo + Z.of_nat (Z.to_nat (z - lo))) by lia.
  apply H. lia.
Qed.

Lemma head_flat_map {A B} (f : A -> list B) (l : list A) x y :
  head l = Some x -> head (f x) = Some y -> head (flat_map f l) = Some y.
Proof.
  destruct l as [|a l]; simpl; [discriminate|]. intros [= ->].
  destruct (f x); simpl; [discriminate|]. auto.
Qed.

Lemma match_atoms_group name alts p s found txt r res :
  head (match_alts alts s) = Some (txt, r) ->
  head (match_atoms p r ((name, txt) :: found)) = Some res ->
  head (match_atoms (Group name alts :: p) s found) = Some res.
Proof.
  intros Ha Hp. cbn [match_atoms].
  apply head_flat_map with (x := (txt, r)); assumption.
Qed.

Lemma match_atoms_lit a c p s found res :
  cclass_match (Lit a) c = true ->
  head (match_atoms p s found) = Some res ->
  head (match_atoms (Chars (Lit a) :: p) (String c s) found) = Some res.
Proof. intros Hc Hp. cbn [match_atoms]. rewrite Hc. exact Hp. Qed.

Lemma match_atoms_space c p s found res :
  isspace c = true ->
  match_spaces s = [] ->
  head (match_atoms p s found) = Some res ->
  head (match_atoms (Spaces :: p) (String c s) found) = Some res.
Proof.
  intros Hc Hs Hp. cbn [match_atoms match_spaces]. rewrite Hc, Hs.
  cbn [app flat_map]. rewrite app_nil_r. exact Hp.
Qed.

Ltac enum_field name lo k :=
  intros Hn; apply (Z_range_cases (field_ok name 2) lo k); [|lia];
  intros i Hi alts rest [= <-]; revert rest;
  repeat first [ lia | destruct i as [|i]; [intros rest; vm_compute; auto|] ].

Lemma field_m n : 1 <= n <= 12 -> field_ok "m" 2 n.
Proof. enum_field "m"%char 1 12%nat. Qed.

Lemma field_d n : 1 <= n <= 31 -> field_ok "d" 2 n.
Proof. enum_field "d"%char 1 31%nat. Qed.

Lemma field_H n : 0 <= n <= 23 -> field_ok "H" 2 n.
Proof. enum_field "H"%char 0 24%nat. Qed.

Lemma field_M n : 0 <= n <= 59 -> field_ok "M" 2 n.
Proof. enum_field "M"%char 0 60%nat. Qed.

Lemma field_S n : 0 <= n <= 59 -> field_ok "S" 2 n.
Proof. enum_field "S"%char 0 60%nat. Qed.

#[local] Arguments isdecimal : simpl never.
#[local] Arguments isspace : simpl never.

Lemma isdecimal_not_space c : isdecimal c = true -> isspace c = false.
Proof.
  destruct c as [[] [] [] [] [] [] [] []]; vm_compute; congruence.
Qed.

Lemma year_table : forallb year_ok (map Z.of_nat (seq 0 (100 * 100))) = true.
Proof. vm_compute. reflexivity. Qed.

Lemma field_Y y : 0 <= y <= 9999 -> field_ok "Y" 4 y.
Proof.
  intros Hy alts rest [= <-].
  assert (Hok : year_ok y = true).
  { pose proof year_table as Ht. rewrite forallb_forall in Ht.
    apply Ht. rewrite <- (Z2Nat.id y) by lia.
    apply in_map, in_seq. lia. }
  unfold year_ok in Hok.
  destruct (zfill 4 y) as [|a [|b [|c [|d [|? ?]]]]]; try discriminate.
  destruct (int _) as [v|]; [|by rewrite andb_false_r in Hok].
  apply andb_prop in Hok as [Hok Hv]. apply andb_prop in Hok as [Hok Hd].
  apply andb_prop in Hok as [Hok Hc]. apply andb_prop in Hok as [Ha Hb].
  apply Z.eqb_eq in Hv. subst v.
  simpl. rewrite Ha, Hb, Hc, Hd. simpl.
  rewrite (isdecimal_not_space a) by assumption. auto.
Qed.

Lemma string_app_cons c (s r : string) : String c s +:+ r = String c (s +:+ r).
Proof. reflexivity. Qed.

Lemma string_app_nil_l (s : string) : EmptyString +:+ s = s.
Proof. reflexivity. Qed.

Lemma string_app_nil_r (s : string) : s +:+ EmptyString = s.
Proof.
  induction s as [|c s IH]; [reflexivity|].
  rewrite string_app_cons, IH. reflexivity.
Qed.

Lemma new_valid y m d H M S :
  valid_fields y m d H M S -> new y m d H M S 0 = Some (mk y m d H M S 0).
Proof.
  unfold valid_fields, new, _check_date_fields, _check_time_fields, MINYEAR, MAXYEAR.
  intros Hv. rewrite !(proj2 (Z.leb_le _ _)) by lia. reflexivity.
Qed.

Lemma valid_fields_day y m d H M S : valid_fields y m d H M S -> 1 <= d <= 31.
Proof.
  unfold valid_fields, _days_in_month. intros (_ & Hm & Hd & _).
  destruct ((m =? 2) && _is_leap y); [lia|].
  assert (Hk : nth (Z.to_nat m) _DAYS_IN_MONTH 0 <= 31); [|lia].
  apply (Z_range_cases (fun m => nth (Z.to_nat m) _DAYS_IN_MONTH 0 <= 31) 1 12);
    [|lia].
  intros i Hi. repeat first [ lia | destruct i as [|i]; [vm_compute; discriminate|] ].
Qed.

Lemma match_alts_single a s x :
  head (match_alts [a] s) = Some x -> match_alts [a] s = [x].
Proof.
  cbn [match_alts]. destruct (match_seq a s); [|discriminate].
  by intros [= ->].
Qed.

Lemma match_atoms_last name alts s found :
  (forall rest, head (match_alts alts (s +:+ rest)) = Some (s, rest)) ->
  head (match_atoms [Group name alts] s found)
  = Some ((name, s) :: found, EmptyString).
Proof.
  intros Ha. specialize (Ha EmptyString). rewrite string_app_nil_r in Ha.
  eapply match_atoms_group; [exact Ha | reflexivity].
Qed.

Lemma field_ok_match name w n alts rest :
  field_ok name w n -> directive name = Some alts ->
  head (match_alts alts (zfill w n +:+ rest)) = Some (zfill w n, rest).
Proof. intros Hf Ha. apply (Hf alts rest Ha). Qed.

Lemma field_ok_int name w n alts :
  field_ok name w n -> directive name = Some alts -> int (zfill w n) = Some n.
Proof. intros Hf Ha. apply (Hf alts EmptyString Ha). Qed.

Lemma field_ok_space name w n alts rest :
  field_ok name w n -> directive name = Some alts ->
  match_spaces (zfill w n +:+ rest) = [].
Proof. intros Hf Ha. apply (Hf alts rest Ha). Qed.

(** Steps through a compiled format, one atom at a time. *)
Ltac step_group lem :=
  eapply match_atoms_group;
  [ eapply field_ok_match; [apply lem; lia | reflexivity] | ].
Ltac step_lit :=
  rewrite ?string_app_cons, ?string_app_nil_l;
  eapply match_atoms_lit; [reflexivity | ].
Ltac step_space lem :=
  rewrite ?string_app_cons, ?string_app_nil_l;
  eapply match_atoms_space;
  [ reflexivity | eapply field_ok_space; [apply lem; lia | reflexivity] | ].
Ltac step_last lem :=
  apply match_atoms_last; intros rest;
  eapply field_ok_match; [apply lem; lia | reflexivity].
Ltac read_fields y m d H M S :=
  unfold field; cbn [group Ascii.eqb Bool.eqb];
  rewrite (field_ok_int "Y" 4 y _ (field_Y y ltac:(lia)) eq_refl),
          (field_ok_int "m" 2 m _ (field_m m ltac:(lia)) eq_refl),
          (field_ok_int "d" 2 d _ (field_d d ltac:(lia)) eq_refl),
          (field_ok_int "H" 2 H _ (field_H H ltac:(lia)) eq_refl),
          (field_ok_int "M" 2 M _ (field_M M ltac:(lia)) eq_refl),
          (field_ok_int "S" 2 S _ (field_S S ltac:(lia)) eq_refl).
Ltac assert_match y m d H M S :=
  match goal with
  | |- context [re_match ?P ?t] =>
      assert (Hre : re_match P t
                    = Some ([("S"%char, zfill 2 S); ("M"%char, zfill 2 M);
                             ("H"%char, zfill 2 H); ("d"%char, zfill 2 d);
                             ("m"%char, zfill 2 m); ("Y"%char, zfill 4 y)],
                            EmptyString));
      [unfold re_match | rewrite Hre]
  end.

Lemma strptime_slash y m d H M S :
  valid_fields y m d H M S ->
  strptime (timestamp_text "/" y m d H M S) "%Y/%m/%d %H:%M:%S"
  = Some (mk y m d H M S 0).
Proof.
  intros Hv. pose proof (valid_fields_day _ _ _ _ _ _ Hv) as Hd.
  pose proof Hv as (Hy & Hm & _ & HH & HM & HS).
  unfold strptime.
  set (p := pattern false _). vm_compute in p. subst p. cbv iota.
  assert_match y m d H M S.
  { unfold timestamp_text.
    step_group field_Y. step_lit. step_group field_m. step_lit.
    step_group field_d. step_space field_H. step_group field_H. step_lit.
    step_group field_M. step_lit. step_last field_S. }
  read_fields y m d H M S. by apply new_valid.
Qed.

Lemma strptime_dash y m d H M S :
  valid_fields y m d H M S ->
  strptime (timestamp_text "-" y m d H M S) "%Y-%m-%d %H:%M:%S"
  = Some (mk y m d H M S 0).
Proof.
  intros Hv. pose proof (valid_fields_day _ _ _ _ _ _ Hv) as Hd.
  pose proof Hv as (Hy & Hm & _ & HH & HM & HS).
  unfold strptime.
  set (p := pattern false _). vm_compute in p. subst p. cbv iota.
  assert_match y m d H M S.
  { unfold timestamp_text.
    step_group field_Y. step_lit. step_group field_m. step_lit.
    step_group field_d. step_space field_H. step_group field_H. step_lit.
    step_group field_M. step_lit. step_last field_S. }
  read_fields y m d H M S. by apply new_valid.
Qed.

(** A text with [-] does not parse with the format with [/]: the loop
    of [parse_timestamp] goes on to the second format. *)
Lemma strptime_slash_on_dash y m d H M S :
  valid_fields y m d H M S ->
  strptime (timestamp_text "-" y m d H M S) "%Y/%m/%d %H:%M:%S" = None.
Proof.
  intros Hv. pose proof Hv as (Hy & _).
  unfold strptime.
  set (p := pattern false _). vm_compute in p. subst p. cbv iota.
  match goal with
  | |- context [re_match ?P ?t] => assert (Hre : re_match P t = None)
  end.
  { unfold re_match, timestamp_text. cbn [match_atoms].
    erewrite match_alts_single
      by (eapply field_ok_match; [apply field_Y; lia | reflexivity]).
    reflexivity. }
  by rewrite Hre.
Qed.

Lemma valid_valid_fields (t : datetime.t) :
  valid t ->
  valid_fields (year t) (month t) (day t) (hour t) (minute t) (second t).
Proof.
  unfold valid, new, valid_fields, _check_date_fields, _check_time_fields,
    MINYEAR, MAXYEAR.
  destruct (_ && _) eqn:E; [intros _|discriminate].
  repeat (apply andb_prop in E; destruct E as [E ?]).
  repeat match goal with
         | H : (_ <=? _) = true |- _ => apply Z.leb_le in H
         end.
  lia.
Qed.

Lemma year_printed_table :
  forallb year_printed_ok (map Z.of_nat (seq 0 (100 * 100))) = true.
Proof. vm_compute. reflexivity. Qed.

Lemma year_printed y : 0 <= y <= 9999 -> year_printed_ok y = true.
Proof.
  intros Hy. pose proof year_printed_table as Ht. rewrite forallb_forall in Ht.
  apply Ht. rewrite <- (Z2Nat.id y) by lia. apply in_map, in_seq. lia.
Qed.

(** From the year 1000 on the unpadded year has four digits. *)
Lemma str_int_year y : 1000 <= y <= 9999 -> str_int y = zfill 4 y.
Proof.
  intros Hy. pose proof (year_printed y ltac:(lia)) as Hok.
  unfold year_printed_ok in Hok. rewrite (proj2 (Z.leb_le 1000 y)) in Hok by lia.
  by apply String.eqb_eq.
Qed.

Lemma dt2str_text (a : datetime.aware) :
  key_based_replication.dt2str a
  = str_int (year (fields a)) +:+ "-" +:+ zfill 2 (month (fields a)) +:+ "-"
    +:+ zfill 2 (day (fields a)) +:+ "T" +:+ zfill 2 (hour (fields a)) +:+ ":"
    +:+ zfill 2 (minute (fields a)) +:+ ":" +:+ zfill 2 (second (fields a)) +:+ "Z".
Proof. reflexivity. Qed.

(** A cursor written by [dt2str] from a year of four digits is read back
    as the local fields it was written from, cut to the whole second. *)
Lemma strptime_dt2str (a : datetime.aware) :
  valid (fields a) -> 1000 <= year (fields a) ->
  strptime (key_based_replication.dt2str a) key_based_replication.timestamp_format
  = Some (whole_second (fields a)).
Proof.
  intros Hv Hy1000. apply valid_valid_fields in Hv.
  pose proof (valid_fields_day _ _ _ _ _ _ Hv) as Hd.
  pose proof Hv as (Hy & Hm & _ & HH & HM & HS).
  rewrite dt2str_text, str_int_year by lia.
  unfold strptime, key_based_replication.timestamp_format.
  set (p := pattern false _). vm_compute in p. subst p. cbv iota.
  set (t := fields a) in *.
  assert_match (year t) (month t) (day t) (hour t) (minute t) (second t).
  { step_group field_Y. step_lit. step_group field_m. step_lit.
    step_group field_d. step_lit. step_group field_H. step_lit.
    step_group field_M. step_lit. step_group field_S. step_lit.
    reflexivity. }
  read_fields (year t) (month t) (day t) (hour t) (minute t) (second t).
  by apply new_valid.
Qed.


(** *** Points in time *)




End Matching.

(** C1: a string [YYYY/MM/DD HH:MM:SS] or [YYYY-MM-DD HH:MM:SS] whose
    fields are a calendar date and a time of day is serialized to the
    ISO-8601 string [YYYY-MM-DDTHH:MM:SS] of the same fields, which ends
    with the seconds: no offset follows. *)
Theorem serialize_iso8601 (y m d H M S : Z) :
  valid_fields y m d H M S ->
  fst (TimestampSerializer.serialize (timestamp_text "/" y m d H M S)
         TimestampSerializer.initial)
  = inr (iso_text y m d H M S)
  /\ fst (TimestampSerializer.serialize (timestamp_text "-" y m d H M S)
            TimestampSerializer.initial)
     = inr (iso_text y m d H M S).
Proof.
  intros Hv. rewrite !serialize_parse.
  cbn [TimestampSerializer.TIMESTAMP_FORMATS TimestampSerializer.initial
       TimestampSerializer.parse_loop fst].
  rewrite (strptime_slash _ _ _ _ _ _ Hv), (strptime_slash_on_dash _ _ _ _ _ _ Hv),
    (strptime_dash _ _ _ _ _ _ Hv).
  unfold datetime.isoformat, iso_text.
  cbn [datetime.year datetime.month datetime.day datetime.hour datetime.minute
       datetime.second datetime.microsecond].
  change (0 =? 0) with true. cbv iota.
  rewrite string_app_nil_r. split; reflexivity.
Qed.

Lemma serialize_iso8601_witness :
  valid_fields 2024 2 29 23 59 59
  /\ fst (TimestampSerializer.serialize "2024/02/29 23:59:59"
            TimestampSerializer.initial) = inr "2024-02-29T23:59:59"
  /\ fst (TimestampSerializer.serialize "2024-02-29 23:59:59"
            TimestampSerializer.initial) = inr "2024-02-29T23:59:59".
Proof.
  assert (Hv : valid_fields 2024 2 29 23 59 59)
    by (unfold valid_fields; vm_compute; intuition discriminate).
  split; [exact Hv|]. exact (serialize_iso8601 2024 2 29 23 59 59 Hv).
Defined.

(** ** The local connector *)

Section Local.

Import local.







(** The run of [update] in terms of the cursor it reads. *)
Lemma update_run configuration (state : gmap string value) :
  let cursor := match state !! "cursor" with Some v => v | None => VInt 0 end in
  update configuration state =
  match getitem SOURCE_DATA cursor with
  | inl e => ([], inl e, state)
  | inr row =>
      match add1 cursor with
      | inl e => ([upsert "hello_world" (Mapping row)], inl e, state)
      | inr next =>
          ([upsert "hello_world" (Mapping row); checkpoint {[ "cursor" := next ]}],
           inr tt, state)
      end
  end.
Proof.
  intros cursor. unfold update, Gen.bind, Gen.get, Gen.of_result, Gen.yield.
  fold cursor. destruct (getitem SOURCE_DATA cursor); [reflexivity|].
  destruct (add1 cursor); reflexivity.
Qed.

End Local.



(** ** The key-based replication connector *)

Section KeyBasedReplication.

Import key_based_replication.

Variable fetchall : string -> result (list row).

Lemma final_last_synced_cons r rows incoming :
  final_last_synced (r :: rows) incoming
  = final_last_synced rows (VStr (dt2str (row4 r))).
Proof.
  unfold final_last_synced. destruct rows as [|r' rows]; [reflexivity|].
  change (last (r :: r' :: rows)) with (last (r' :: rows)).
  destruct (last (r' :: rows)) eqn:E; [reflexivity|].
  by apply last_None in E.
Qed.

Lemma for_rows_run {S} rows incoming (s : S) :
  for_rows rows incoming s
  = (map upsert_of rows, inr (final_last_synced rows incoming), s).
Proof.
  revert incoming. induction rows as [|r rows IH]; intros incoming.
  - reflexivity.
  - cbn [for_rows]. unfold Gen.bind, Gen.yield.
    rewrite IH, final_last_synced_cons. reflexivity.
Qed.

(** The run of [update] in terms of what the database returns. *)
Lemma kbr_update_run configuration (state : gmap string value) :
  update fetchall configuration state =
  match fetchall (query (incoming_last_synced state)) with
  | inl e => ([], inl e, state)
  | inr rows =>
      let state' :=
        <[ "last_synced" := final_last_synced rows (incoming_last_synced state) ]> state in
      ((map upsert_of rows ++ [checkpoint state'])%list, inr tt, state')
  end.
Proof.
  unfold update, Gen.bind, Gen.get, Gen.of_result, Gen.modify, Gen.yield.
  fold (incoming_last_synced state).
  destruct (fetchall _) as [e|rows]; [reflexivity|].
  rewrite for_rows_run. reflexivity.
Qed.

End KeyBasedReplication.

(** C7: a state without ["cursor"] makes the local [update] yield and end
    as with [cursor = 0], that is with row 0 and the checkpoint
    [{cursor: 1}]; a state without ["last_synced"] makes the key-based
    replication [update] yield and end as with
    [last_synced = "2024-01-01T00:00:00Z"], whatever the database
    answers. *)
Theorem absent_keys_default (configuration state : gmap string value) :
  (state !! "cursor" = None ->
   fst (local.update configuration state)
   = fst (local.update configuration (<[ "cursor" := VInt 0 ]> state))
   /\ fst (local.update configuration state)
      = ([upsert "hello_world"
            (Mapping {[ "id" := VInt 10; "message" := VStr "Hello world" ]});
          checkpoint {[ "cursor" := VInt 1 ]}], inr tt))
  /\ (state !! "last_synced" = None ->
      forall fetchall,
        fst (key_based_replication.update fetchall configuration state)
        = fst (key_based_replication.update fetchall configuration
                 (<[ "last_synced" := VStr "2024-01-01T00:00:00Z" ]> state))
        /\ incoming_last_synced state = VStr "2024-01-01T00:00:00Z").
Proof.
  split.
  - intros Hc. rewrite !update_run, Hc, lookup_insert_eq. split; reflexivity.
  - intros Hl fetchall. rewrite !kbr_update_run.
    unfold incoming_last_synced. rewrite Hl, lookup_insert_eq.
    split; [|reflexivity].
    destruct (fetchall _) as [e|rows]; [reflexivity|].
    cbv zeta. cbn [fst]. by rewrite insert_insert_eq.
Qed.

Lemma absent_keys_default_witness :
  let state : gmap string value := {[ "page" := VInt 7 ]} in
  fst (local.update ∅ state)
  = fst (local.update ∅ (<[ "cursor" := VInt 0 ]> state))
  /\ fst (key_based_replication.update (fun _ => inr []) ∅ state)
     = fst (key_based_replication.update (fun _ => inr []) ∅
              (<[ "last_synced" := VStr "2024-01-01T00:00:00Z" ]> state)).
Proof.
  intros state.
  destruct (absent_keys_default ∅ state) as [Hlocal Hkbr]. split.
  - apply Hlocal. reflexivity.
  - apply (Hkbr eq_refl (fun _ => inr [])).
Defined.




(** * Further properties *)

(** ** What the serializer accepts and what it returns *)

Section Accepts.

Import datetime.

#[local] Arguments isdecimal : simpl never.
#[local] Arguments isspace : simpl never.

Lemma string_app_assoc (a b c : string) : (a +:+ b) +:+ c = a +:+ b +:+ c.
Proof.
  induction a as [|x a IH]; [reflexivity|].
  rewrite !string_app_cons, IH. reflexivity.
Qed.

Lemma string_length_app (a b : string) :
  String.length (a +:+ b) = (String.length a + String.length b)%nat.
Proof.
  induction a as [|x a IH]; [reflexivity|].
  rewrite string_app_cons. cbn [String.length]. by rewrite IH.
Qed.

(** Every datetime that [strptime] returns is one the constructor built,
    with no microseconds. *)
Lemma strptime_valid s format t :
  strptime s format = Some t -> valid t /\ microsecond t = 0.
Proof.
  unfold strptime.
  destruct (pattern false format); [|discriminate].
  destruct (re_match _ _) as [[found [|? ?]]|]; try discriminate.
  repeat match goal with
         | |- context [match field ?f ?n ?d with _ => _ end] =>
             destruct (field f n d); try discriminate
         end.
  unfold new. destruct (_ && _) eqn:E; [|discriminate]. intros [= <-].
  split; [|reflexivity].
  unfold valid, new. cbn [year month day hour minute second microsecond].
  by rewrite E.
Qed.

Lemma isoformat_iso_text t :
  microsecond t = 0 ->
  isoformat t = iso_text (year t) (month t) (day t) (hour t) (minute t) (second t).
Proof.
  intros Hus. unfold isoformat, iso_text. rewrite Hus.
  change (0 =? 0) with true. cbv iota. by rewrite string_app_nil_r.
Qed.

Lemma zfill2_length n : 0 <= n <= 99 -> String.length (zfill 2 n) = 2%nat.
Proof.
  intros Hn. apply (Z_range_cases (fun n => String.length (zfill 2 n) = 2%nat) 0 100);
    [|lia].
  intros i Hi. repeat first [ lia | destruct i as [|i]; [vm_compute; reflexivity|] ].
Qed.

Lemma zfill4_length y : 0 <= y <= 9999 -> String.length (zfill 4 y) = 4%nat.
Proof.
  intros Hy.
  assert (Hok : year_ok y = true).
  { pose proof year_table as Ht. rewrite forallb_forall in Ht.
    apply Ht. rewrite <- (Z2Nat.id y) by lia. apply in_map, in_seq. lia. }
  unfold year_ok in Hok.
  by destruct (zfill 4 y) as [|a [|b [|c [|d [|? ?]]]]].
Qed.

Lemma iso_text_length y m d H M S :
  valid_fields y m d H M S -> String.length (iso_text y m d H M S) = 19%nat.
Proof.
  intros Hv. pose proof (valid_fields_day _ _ _ _ _ _ Hv) as Hd.
  destruct Hv as (Hy & Hm & _ & HH & HM & HS).
  unfold iso_text. rewrite !string_length_app.
  rewrite zfill4_length, !zfill2_length by lia. reflexivity.
Qed.

End Accepts.

(** X1: whatever the input, a value that [serialize] returns with the
    two formats of the class is the text [YYYY-MM-DDTHH:MM:SS] of a
    calendar date and a time of day, nineteen characters long. *)
Theorem serialize_returns_iso8601 (s out : string) :
  fst (TimestampSerializer.serialize s TimestampSerializer.initial) = inr out ->
  exists y m d H M S,
    valid_fields y m d H M S
    /\ out = iso_text y m d H M S
    /\ String.length out = 19%nat.
Proof.
  rewrite serialize_parse. cbn [fst].
  destruct (TimestampSerializer.parse_loop _ s) as [e|t] eqn:Hp; [discriminate|].
  intros [= <-].
  apply parse_loop_first in Hp as (_ & fmt & _ & _ & _ & Hf).
  apply strptime_valid in Hf as [Hvalid Hus].
  apply valid_valid_fields in Hvalid.
  exists (datetime.year t), (datetime.month t), (datetime.day t),
    (datetime.hour t), (datetime.minute t), (datetime.second t).
  rewrite (isoformat_iso_text t Hus).
  split; [assumption|]. split; [reflexivity|]. by apply iso_text_length.
Qed.

Lemma serialize_returns_iso8601_witness :
  exists y m d H M S,
    valid_fields y m d H M S
    /\ "2024-09-24T14:30:45" = iso_text y m d H M S
    /\ String.length "2024-09-24T14:30:45" = 19%nat.
Proof.
  apply (serialize_returns_iso8601 "2024/9/24   14:30:45").
  vm_compute. reflexivity.
Defined.

Section Stamp.

Import datetime.

#[local] Arguments isdecimal : simpl never.
#[local] Arguments isspace : simpl never.

Lemma head_app_l {A} (l l' : list A) x :
  head l = Some x -> head (l ++ l') = Some x.
Proof. by destruct l. Qed.

Lemma match_spaces_run ws rest :
  white_space ws -> match_spaces rest = [] ->
  head (match_spaces (ws +:+ rest)) = Some rest.
Proof.
  intros [Hne Hall] Hrest.
  induction ws as [|c ws IH]; [done|].
  cbn [all_space] in Hall. apply andb_prop in Hall as [Hc Hall].
  rewrite string_app_cons. cbn [match_spaces]. rewrite Hc.
  destruct ws as [|c' ws].
  - rewrite string_app_nil_l, Hrest. reflexivity.
  - apply head_app_l, IH; [discriminate | exact Hall].
Qed.

Lemma match_atoms_spaces_run ws p rest found res :
  white_space ws -> match_spaces rest = [] ->
  head (match_atoms p rest found) = Some res ->
  head (match_atoms (Spaces :: p) (ws +:+ rest) found) = Some res.
Proof.
  intros Hws Hrest Hp. cbn [match_atoms].
  apply head_flat_map with (x := rest); [by apply match_spaces_run | exact Hp].
Qed.

Lemma shaped_of_valid y m d H M S :
  valid_fields y m d H M S -> shaped_fields y m d H M S.
Proof.
  intros Hv. pose proof (valid_fields_day _ _ _ _ _ _ Hv).
  unfold valid_fields in Hv. unfold shaped_fields. lia.
Qed.

Ltac go_group lem :=
  eapply match_atoms_group;
  [ eapply field_ok_match; [apply lem; lia | reflexivity] | ].
Ltac go_lit :=
  rewrite ?string_app_cons, ?string_app_nil_l;
  eapply match_atoms_lit; [reflexivity | ].
Ltac go_spaces lem :=
  eapply match_atoms_spaces_run;
  [ assumption | eapply field_ok_space; [apply lem; lia | reflexivity] | ].
Ltac go_fields y m d H M S :=
  unfold field; cbn [group Ascii.eqb Bool.eqb];
  rewrite (field_ok_int "Y" 4 y _ (field_Y y ltac:(lia)) eq_refl),
          (field_ok_int "m" 2 m _ (field_m m ltac:(lia)) eq_refl),
          (field_ok_int "d" 2 d _ (field_d d ltac:(lia)) eq_refl),
          (field_ok_int "H" 2 H _ (field_H H ltac:(lia)) eq_refl),
          (field_ok_int "M" 2 M _ (field_M M ltac:(lia)) eq_refl),
          (field_ok_int "S" 2 S _ (field_S S ltac:(lia)) eq_refl).
Ltac go_stamp y m d H M S extra :=
  unfold strptime;
  match goal with |- context [pattern false ?f] =>
    let p := fresh "p" in set (p := pattern false f); vm_compute in p; subst p
  end;
  cbv iota;
  match goal with
  | |- context [re_match ?P ?t] =>
      assert (Hre : re_match P t
                    = Some ([("S"%char, zfill 2 S); ("M"%char, zfill 2 M);
                             ("H"%char, zfill 2 H); ("d"%char, zfill 2 d);
                             ("m"%char, zfill 2 m); ("Y"%char, zfill 4 y)],
                            extra));
      [ unfold re_match, stamp;
        go_group field_Y; go_lit; go_group field_m; go_lit;
        go_group field_d; go_spaces field_H; go_group field_H; go_lit;
        go_group field_M; go_lit; go_group field_S; reflexivity
      | rewrite Hre ]
  end.

(** The first match of either format on a stamp ends before [extra];
    [strptime] then builds the datetime when [extra] is empty and fails
    on unconverted data otherwise. *)
Lemma strptime_stamp_slash ws y m d H M S extra :
  shaped_fields y m d H M S -> white_space ws ->
  strptime (stamp "/" ws y m d H M S extra) "%Y/%m/%d %H:%M:%S"
  = match extra with
    | EmptyString => new y m d H M S 0
    | String _ _ => None
    end.
Proof.
  intros (Hy & Hm & Hd & HH & HM & HS) Hws.
  go_stamp y m d H M S extra.
  destruct extra; [|reflexivity]. go_fields y m d H M S. reflexivity.
Qed.

Lemma strptime_stamp_dash ws y m d H M S extra :
  shaped_fields y m d H M S -> white_space ws ->
  strptime (stamp "-" ws y m d H M S extra) "%Y-%m-%d %H:%M:%S"
  = match extra with
    | EmptyString => new y m d H M S 0
    | String _ _ => None
    end.
Proof.
  intros (Hy & Hm & Hd & HH & HM & HS) Hws.
  go_stamp y m d H M S extra.
  destruct extra; [|reflexivity]. go_fields y m d H M S. reflexivity.
Qed.

(** After the year, each format wants its own separator. *)
Lemma strptime_slash_separator y c rest :
  0 <= y <= 9999 -> cclass_match (Lit "/") c = false ->
  strptime (zfill 4 y +:+ String c rest) "%Y/%m/%d %H:%M:%S" = None.
Proof.
  intros Hy Hc. unfold strptime.
  set (p := pattern false _). vm_compute in p. subst p. cbv iota.
  match goal with
  | |- context [re_match ?P ?t] => assert (Hre : re_match P t = None)
  end.
  { unfold re_match. cbn [match_atoms].
    erewrite match_alts_single
      by (eapply field_ok_match; [apply field_Y; lia | reflexivity]).
    cbn [flat_map fst snd match_atoms]. rewrite Hc. reflexivity. }
  by rewrite Hre.
Qed.

Lemma strptime_dash_separator y c rest :
  0 <= y <= 9999 -> cclass_match (Lit "-") c = false ->
  strptime (zfill 4 y +:+ String c rest) "%Y-%m-%d %H:%M:%S" = None.
Proof.
  intros Hy Hc. unfold strptime.
  set (p := pattern false _). vm_compute in p. subst p. cbv iota.
  match goal with
  | |- context [re_match ?P ?t] => assert (Hre : re_match P t = None)
  end.
  { unfold re_match. cbn [match_atoms].
    erewrite match_alts_single
      by (eapply field_ok_match; [apply field_Y; lia | reflexivity]).
    cbn [flat_map fst snd match_atoms]. rewrite Hc. reflexivity. }
  by rewrite Hre.
Qed.

Lemma new_Some_valid_fields y m d H M S us t :
  new y m d H M S us = Some t -> valid_fields y m d H M S.
Proof.
  intros Hn. assert (Ht : t = mk y m d H M S us).
  { unfold new in Hn. destruct (_ && _); [|discriminate]. by injection Hn. }
  subst t. by apply (valid_valid_fields (mk y m d H M S us)).
Qed.

Lemma new_invalid y m d H M S :
  ~ valid_fields y m d H M S -> new y m d H M S 0 = None.
Proof.
  intros Hn. destruct (new y m d H M S 0) as [t|] eqn:E; [|reflexivity].
  by apply new_Some_valid_fields in E.
Qed.

Lemma timestamp_text_stamp sep y m d H M S extra :
  timestamp_text sep y m d H M S +:+ extra = stamp sep " " y m d H M S extra.
Proof. unfold timestamp_text, stamp. by rewrite !string_app_assoc. Qed.

Lemma white_space_one : white_space " ".
Proof. split; [discriminate | reflexivity]. Qed.

(** How the two formats of the class answer a stamp. *)
Lemma parse_loop_stamp_slash ws y m d H M S extra :
  shaped_fields y m d H M S -> white_space ws ->
  TimestampSerializer.parse_loop
    (TimestampSerializer.TIMESTAMP_FORMATS TimestampSerializer.initial)
    (stamp "/" ws y m d H M S extra)
  = match (match extra with
           | EmptyString => new y m d H M S 0
           | String _ _ => None
           end) with
    | Some t => inr t
    | None => inl (not_recognized (stamp "/" ws y m d H M S extra))
    end.
Proof.
  intros Hs Hws.
  cbn [TimestampSerializer.TIMESTAMP_FORMATS TimestampSerializer.initial
       TimestampSerializer.parse_loop].
  rewrite (strptime_stamp_slash ws _ _ _ _ _ _ extra Hs Hws).
  destruct (match extra with EmptyString => _ | String _ _ => _ end); [reflexivity|].
  unfold stamp at 1. rewrite string_app_cons, string_app_nil_l.
  rewrite strptime_dash_separator; [reflexivity | unfold shaped_fields in Hs; lia | reflexivity].
Qed.

Lemma parse_loop_stamp_dash ws y m d H M S extra :
  shaped_fields y m d H M S -> white_space ws ->
  TimestampSerializer.parse_loop
    (TimestampSerializer.TIMESTAMP_FORMATS TimestampSerializer.initial)
    (stamp "-" ws y m d H M S extra)
  = match (match extra with
           | EmptyString => new y m d H M S 0
           | String _ _ => None
           end) with
    | Some t => inr t
    | None => inl (not_recognized (stamp "-" ws y m d H M S extra))
    end.
Proof.
  intros Hs Hws.
  cbn [TimestampSerializer.TIMESTAMP_FORMATS TimestampSerializer.initial
       TimestampSerializer.parse_loop].
  rewrite (strptime_stamp_dash ws _ _ _ _ _ _ extra Hs Hws).
  unfold stamp at 1. rewrite string_app_cons, string_app_nil_l.
  rewrite strptime_slash_separator;
    [reflexivity | unfold shaped_fields in Hs; lia | reflexivity].
Qed.

End Stamp.

Section Rejects.

Import datetime.

#[local] Arguments isdecimal : simpl never.
#[local] Arguments isspace : simpl never.

(** Both formats start with the four digits of the year. *)
Lemma strptime_needs_digit c rest format :
  format = "%Y/%m/%d %H:%M:%S" \/ format = "%Y-%m-%d %H:%M:%S" ->
  isdecimal c = false ->
  strptime (String c rest) format = None.
Proof.
  intros [-> | ->] Hc; unfold strptime;
    (set (p := pattern false _); vm_compute in p; subst p; cbv iota);
    unfold re_match; cbn [match_atoms match_alts match_seq cclass_match];
    rewrite Hc; reflexivity.
Qed.

Lemma strptime_empty format :
  format = "%Y/%m/%d %H:%M:%S" \/ format = "%Y-%m-%d %H:%M:%S" ->
  strptime EmptyString format = None.
Proof. intros [-> | ->]; vm_compute; reflexivity. Qed.

Lemma separators_differ c :
  cclass_match (Lit "/") c = true -> cclass_match (Lit "-") c = false.
Proof. destruct c as [[] [] [] [] [] [] [] []]; vm_compute; congruence. Qed.

(** No string parses with both formats. *)
Lemma formats_exclusive s :
  strptime s "%Y/%m/%d %H:%M:%S" = None \/ strptime s "%Y-%m-%d %H:%M:%S" = None.
Proof.
  unfold strptime.
  set (p := pattern false "%Y/%m/%d %H:%M:%S"). vm_compute in p. subst p.
  set (p := pattern false "%Y-%m-%d %H:%M:%S"). vm_compute in p. subst p.
  cbv iota. unfold re_match. cbn [match_atoms match_alts].
  destruct (match_seq _ s) as [[txt r]|]; [|by left].
  cbn [flat_map fst snd]. rewrite !app_nil_r.
  destruct r as [|c r]; [by left|].
  cbn [match_atoms].
  destruct (cclass_match (Lit "/") c) eqn:Hc.
  - right. by rewrite (separators_differ c Hc).
  - by left.
Qed.

(** The text [MM-DDT...] after the year and a dash: whatever alternative
    the month and the day take, no white space follows the day. *)
Lemma date_then_T m d :
  1 <= m <= 12 -> 1 <= d <= 31 ->
  forall p rest found,
    pattern false "%m-%d %H:%M:%S" = Some p ->
    match_atoms p (zfill 2 m +:+ String "-" (zfill 2 d +:+ String "T" rest)) found = [].
Proof.
  intros Hm Hd.
  apply (Z_range_cases
           (fun m => forall p rest found, pattern false "%m-%d %H:%M:%S" = Some p ->
              match_atoms p (zfill 2 m +:+ String "-" (zfill 2 d +:+ String "T" rest))
                found = []) 1 12); [|lia].
  intros i Hi.
  apply (Z_range_cases
           (fun d => forall p rest found, pattern false "%m-%d %H:%M:%S" = Some p ->
              match_atoms p (zfill 2 (1 + Z.of_nat i)
                             +:+ String "-" (zfill 2 d +:+ String "T" rest))
                found = []) 1 31); [|lia].
  intros j Hj p rest found [= <-]. revert rest found.
  repeat first
    [ lia
    | destruct i as [|i];
      [ repeat first
          [ lia
          | destruct j as [|j]; [intros rest found; vm_compute; reflexivity|] ] | ] ].
Qed.

Lemma match_atoms_group_single name a p s found txt r :
  head (match_alts [a] s) = Some (txt, r) ->
  match_atoms (Group name [a] :: p) s found = match_atoms p r ((name, txt) :: found).
Proof.
  intros Ha. cbn [match_atoms]. rewrite (match_alts_single _ _ _ Ha).
  cbn [flat_map fst snd]. by rewrite app_nil_r.
Qed.

Lemma match_atoms_lit_eq a c p s found :
  cclass_match (Lit a) c = true ->
  match_atoms (Chars (Lit a) :: p) (String c s) found = match_atoms p s found.
Proof. intros Hc. cbn [match_atoms]. by rewrite Hc. Qed.

(** The ISO text is read by neither format: after the year the first
    wants a slash, and after the day the second wants white space. *)
Lemma strptime_iso_text_dash y m d H M S :
  valid_fields y m d H M S ->
  strptime (iso_text y m d H M S) "%Y-%m-%d %H:%M:%S" = None.
Proof.
  intros Hv. pose proof (valid_fields_day _ _ _ _ _ _ Hv) as Hd.
  destruct Hv as (Hy & Hm & _).
  unfold strptime.
  set (p := pattern false _). vm_compute in p. subst p. cbv iota.
  match goal with
  | |- context [re_match ?P ?t] => assert (Hre : re_match P t = None)
  end.
  { unfold re_match, iso_text.
    erewrite match_atoms_group_single
      by (eapply field_ok_match; [apply field_Y; lia | reflexivity]).
    rewrite !string_app_cons, !string_app_nil_l.
    rewrite match_atoms_lit_eq by reflexivity.
    rewrite (date_then_T m d Hm Hd); reflexivity. }
  by rewrite Hre.
Qed.

Lemma strptime_iso_text_slash y m d H M S :
  valid_fields y m d H M S ->
  strptime (iso_text y m d H M S) "%Y/%m/%d %H:%M:%S" = None.
Proof.
  intros (Hy & _). unfold iso_text.
  rewrite string_app_cons, string_app_nil_l.
  apply strptime_slash_separator; [lia | reflexivity].
Qed.

End Rejects.

(** X2: [serialize] does not read its own output: applied to a value it
    returned, it raises the "format not recognized" error. *)
Theorem serialize_rejects_its_output (s out : string) :
  fst (TimestampSerializer.serialize s TimestampSerializer.initial) = inr out ->
  fst (TimestampSerializer.serialize out TimestampSerializer.initial)
  = inl (not_recognized out).
Proof.
  intros Hs.
  assert (Hiso : exists y m d H M S,
             valid_fields y m d H M S /\ out = iso_text y m d H M S).
  { revert Hs. rewrite serialize_parse. cbn [fst].
    destruct (TimestampSerializer.parse_loop _ s) as [e|t] eqn:Hp; [discriminate|].
    intros [= <-].
    apply parse_loop_first in Hp as (_ & fmt & _ & _ & _ & Hf).
    apply strptime_valid in Hf as [Hvalid Hus].
    apply valid_valid_fields in Hvalid.
    exists (datetime.year t), (datetime.month t), (datetime.day t),
      (datetime.hour t), (datetime.minute t), (datetime.second t).
    split; [assumption | by apply isoformat_iso_text]. }
  destruct Hiso as (y & m & d & H & M & S & Hv & ->).
  rewrite serialize_parse.
  cbn [TimestampSerializer.TIMESTAMP_FORMATS TimestampSerializer.initial
       TimestampSerializer.parse_loop fst].
  by rewrite (strptime_iso_text_slash _ _ _ _ _ _ Hv),
    (strptime_iso_text_dash _ _ _ _ _ _ Hv).
Qed.

Lemma serialize_rejects_its_output_witness :
  fst (TimestampSerializer.serialize "2024-09-24T10:30:45" TimestampSerializer.initial)
  = inl (not_recognized "2024-09-24T10:30:45").
Proof.
  apply (serialize_rejects_its_output "2024-09-24 10:30:45").
  vm_compute. reflexivity.
Defined.

(** X3: text after the seconds (a fraction, a [Z], an offset, a space) is
    not tolerated: a timestamp in either format followed by anything is
    rejected. *)
Theorem serialize_rejects_trailing_text (y m d H M S : Z) (extra : string) :
  shaped_fields y m d H M S ->
  extra <> EmptyString ->
  fst (TimestampSerializer.serialize (timestamp_text "/" y m d H M S +:+ extra)
         TimestampSerializer.initial)
  = inl (not_recognized (timestamp_text "/" y m d H M S +:+ extra))
  /\ fst (TimestampSerializer.serialize (timestamp_text "-" y m d H M S +:+ extra)
            TimestampSerializer.initial)
     = inl (not_recognized (timestamp_text "-" y m d H M S +:+ extra)).
Proof.
  intros Hs He. rewrite !serialize_parse, !timestamp_text_stamp. cbn [fst].
  rewrite (parse_loop_stamp_slash _ _ _ _ _ _ _ extra Hs white_space_one),
    (parse_loop_stamp_dash _ _ _ _ _ _ _ extra Hs white_space_one).
  by destruct extra.
Qed.

Lemma serialize_rejects_trailing_text_witness :
  fst (TimestampSerializer.serialize "2024/09/24 14:30:45.250"
         TimestampSerializer.initial)
  = inl (not_recognized "2024/09/24 14:30:45.250")
  /\ fst (TimestampSerializer.serialize "2024-09-24 14:30:45.250"
            TimestampSerializer.initial)
     = inl (not_recognized "2024-09-24 14:30:45.250").
Proof.
  apply (serialize_rejects_trailing_text 2024 9 24 14 30 45 ".250").
  - unfold shaped_fields. lia.
  - discriminate.
Defined.

(** X4: an input that is empty or does not start with a decimal digit
    (leading white space, a quote, a brace, a sign) is rejected. *)
Theorem serialize_needs_leading_digit (s : string) :
  match s with
  | EmptyString => True
  | String c _ => isdecimal c = false
  end ->
  fst (TimestampSerializer.serialize s TimestampSerializer.initial)
  = inl (not_recognized s).
Proof.
  intros Hs. rewrite serialize_parse.
  cbn [TimestampSerializer.TIMESTAMP_FORMATS TimestampSerializer.initial
       TimestampSerializer.parse_loop fst].
  destruct s as [|c rest].
  - by rewrite !strptime_empty by auto.
  - by rewrite !strptime_needs_digit by auto.
Qed.

Lemma serialize_needs_leading_digit_witness :
  fst (TimestampSerializer.serialize " 2024/09/24 14:30:45" TimestampSerializer.initial)
  = inl (not_recognized " 2024/09/24 14:30:45").
Proof.
  apply (serialize_needs_leading_digit " 2024/09/24 14:30:45"). reflexivity.
Defined.

(** X5: any non-empty run of white space (several spaces, a tab, a line
    feed) may stand between the date and the time; the result is the same
    ISO text. *)
Theorem serialize_any_white_space (ws : string) (y m d H M S : Z) :
  valid_fields y m d H M S ->
  white_space ws ->
  fst (TimestampSerializer.serialize (stamp "/" ws y m d H M S EmptyString)
         TimestampSerializer.initial)
  = inr (iso_text y m d H M S)
  /\ fst (TimestampSerializer.serialize (stamp "-" ws y m d H M S EmptyString)
            TimestampSerializer.initial)
     = inr (iso_text y m d H M S).
Proof.
  intros Hv Hws. pose proof (shaped_of_valid _ _ _ _ _ _ Hv) as Hs.
  rewrite !serialize_parse. cbn [fst].
  rewrite (parse_loop_stamp_slash _ _ _ _ _ _ _ EmptyString Hs Hws),
    (parse_loop_stamp_dash _ _ _ _ _ _ _ EmptyString Hs Hws).
  rewrite (new_valid _ _ _ _ _ _ Hv).
  by rewrite (isoformat_iso_text (datetime.mk y m d H M S 0) eq_refl).
Qed.

Lemma serialize_any_white_space_witness :
  let tab := String "009" EmptyString in
  fst (TimestampSerializer.serialize
         ("2024/09/24" +:+ tab +:+ " " +:+ "14:30:45") TimestampSerializer.initial)
  = inr "2024-09-24T14:30:45"
  /\ fst (TimestampSerializer.serialize
            ("2024-09-24" +:+ tab +:+ " " +:+ "14:30:45") TimestampSerializer.initial)
     = inr "2024-09-24T14:30:45".
Proof.
  intros tab.
  apply (serialize_any_white_space (tab +:+ " ") 2024 9 24 14 30 45).
  - unfold valid_fields; vm_compute; intuition discriminate.
  - split; [discriminate | reflexivity].
Defined.

(** X6: a text of the right shape whose fields are not a date is
    rejected: a year 0, or a day past the end of the month (30 February,
    31 April, 29 February of a common year). *)
Theorem serialize_rejects_impossible_date (y m d H M S : Z) :
  shaped_fields y m d H M S ->
  ~ valid_fields y m d H M S ->
  fst (TimestampSerializer.serialize (timestamp_text "/" y m d H M S)
         TimestampSerializer.initial)
  = inl (not_recognized (timestamp_text "/" y m d H M S))
  /\ fst (TimestampSerializer.serialize (timestamp_text "-" y m d H M S)
            TimestampSerializer.initial)
     = inl (not_recognized (timestamp_text "-" y m d H M S)).
Proof.
  intros Hs Hn.
  rewrite <- (string_app_nil_r (timestamp_text "/" y m d H M S)),
    <- (string_app_nil_r (timestamp_text "-" y m d H M S)).
  rewrite !serialize_parse, !timestamp_text_stamp. cbn [fst].
  rewrite (parse_loop_stamp_slash _ _ _ _ _ _ _ EmptyString Hs white_space_one),
    (parse_loop_stamp_dash _ _ _ _ _ _ _ EmptyString Hs white_space_one).
  by rewrite (new_invalid _ _ _ _ _ _ Hn).
Qed.

Lemma serialize_rejects_impossible_date_witness :
  fst (TimestampSerializer.serialize "2023/02/29 10:30:45" TimestampSerializer.initial)
  = inl (not_recognized "2023/02/29 10:30:45")
  /\ fst (TimestampSerializer.serialize "2023-02-29 10:30:45" TimestampSerializer.initial)
     = inl (not_recognized "2023-02-29 10:30:45").
Proof.
  apply (serialize_rejects_impossible_date 2023 2 29 10 30 45).
  - unfold shaped_fields. lia.
  - unfold valid_fields. vm_compute. intuition.
Defined.

(** X7: no string parses with both formats, so the order of the two
    formats in [TIMESTAMP_FORMATS] does not change any result. *)
Theorem format_order_irrelevant (s : string) :
  (datetime.strptime s "%Y/%m/%d %H:%M:%S" = None
   \/ datetime.strptime s "%Y-%m-%d %H:%M:%S" = None)
  /\ TimestampSerializer.serialize s
       {| TimestampSerializer.TIMESTAMP_FORMATS :=
            ["%Y-%m-%d %H:%M:%S"; "%Y/%m/%d %H:%M:%S"] |}
     = (fst (TimestampSerializer.serialize s TimestampSerializer.initial),
        {| TimestampSerializer.TIMESTAMP_FORMATS :=
             ["%Y-%m-%d %H:%M:%S"; "%Y/%m/%d %H:%M:%S"] |}).
Proof.
  split; [apply formats_exclusive|].
  rewrite !serialize_parse.
  cbn [TimestampSerializer.TIMESTAMP_FORMATS TimestampSerializer.initial
       TimestampSerializer.parse_loop fst].
  destruct (formats_exclusive s) as [E | E]; rewrite E;
    by destruct (datetime.strptime s _).
Qed.

Section Loose.

Import datetime.

Ltac enum_loose name next lo k :=
  intros Hn; apply (Z_range_cases (loose_ok name next) lo k); [|lia];
  intros i Hi padded alts rest [= <-]; revert rest;
  repeat first
    [ lia
    | destruct i as [|i]; [intros rest; destruct padded; vm_compute; auto|] ].

Lemma loose_m_slash n : 1 <= n <= 12 -> loose_ok "m" "/" n.
Proof. enum_loose "m"%char "/"%char 1 12%nat. Qed.

Lemma loose_m_dash n : 1 <= n <= 12 -> loose_ok "m" "-" n.
Proof. enum_loose "m"%char "-"%char 1 12%nat. Qed.

Lemma loose_d n : 1 <= n <= 31 -> loose_ok "d" " " n.
Proof. enum_loose "d"%char " "%char 1 31%nat. Qed.

Lemma loose_H n : 0 <= n <= 23 -> loose_ok "H" ":" n.
Proof. enum_loose "H"%char ":"%char 0 24%nat. Qed.

Lemma loose_M n : 0 <= n <= 59 -> loose_ok "M" ":" n.
Proof. enum_loose "M"%char ":"%char 0 60%nat. Qed.

Lemma loose_S n : 0 <= n <= 59 -> loose_last "S" n.
Proof.
  intros Hn. apply (Z_range_cases (loose_last "S") 0 60); [|lia].
  intros i Hi padded alts [= <-].
  repeat first
    [ lia | destruct i as [|i]; [destruct padded; vm_compute; auto|] ].
Qed.

Ltac loose_group lem :=
  eapply match_atoms_group;
  [ match goal with
    | |- head (match_alts ?a (show ?b ?n +:+ String ?c ?r)) = _ =>
        apply (lem n ltac:(lia) b a r eq_refl)
    end | ].
Ltac loose_lit := eapply match_atoms_lit; [reflexivity | ].

Lemma strptime_loose sep format pm pd pH pM pS y m d H M S :
  (sep = "/" /\ format = "%Y/%m/%d %H:%M:%S")
  \/ (sep = "-" /\ format = "%Y-%m-%d %H:%M:%S") ->
  valid_fields y m d H M S ->
  strptime (loose_text sep pm pd pH pM pS y m d H M S) format
  = Some (mk y m d H M S 0).
Proof.
  intros Hsep Hv. pose proof (valid_fields_day _ _ _ _ _ _ Hv) as Hd.
  pose proof Hv as (Hy & Hm & _ & HH & HM & HS).
  assert (Hre : forall p, pattern false format = Some p ->
            re_match p (loose_text sep pm pd pH pM pS y m d H M S)
            = Some ([("S"%char, show pS S); ("M"%char, show pM M);
                     ("H"%char, show pH H); ("d"%char, show pd d);
                     ("m"%char, show pm m); ("Y"%char, zfill 4 y)],
                    EmptyString)).
  { intros p Hp. unfold re_match, loose_text.
    rewrite !string_app_cons, !string_app_nil_l.
    destruct Hsep as [[-> ->] | [-> ->]]; injection Hp as <-.
    - rewrite !string_app_cons, !string_app_nil_l.
      eapply match_atoms_group;
        [eapply field_ok_match; [apply field_Y; lia | reflexivity]|].
      loose_lit. loose_group loose_m_slash. loose_lit. loose_group loose_d.
      eapply match_atoms_space;
        [reflexivity | apply (loose_H H ltac:(lia) pH _ _ eq_refl) |].
      loose_group loose_H. loose_lit. loose_group loose_M. loose_lit.
      eapply match_atoms_group;
        [apply (loose_S S ltac:(lia) pS _ eq_refl) | reflexivity].
    - rewrite !string_app_cons, !string_app_nil_l.
      eapply match_atoms_group;
        [eapply field_ok_match; [apply field_Y; lia | reflexivity]|].
      loose_lit. loose_group loose_m_dash. loose_lit. loose_group loose_d.
      eapply match_atoms_space;
        [reflexivity | apply (loose_H H ltac:(lia) pH _ _ eq_refl) |].
      loose_group loose_H. loose_lit. loose_group loose_M. loose_lit.
      eapply match_atoms_group;
        [apply (loose_S S ltac:(lia) pS _ eq_refl) | reflexivity]. }
  unfold strptime.
  destruct (pattern false format) as [p|] eqn:Hp;
    [|destruct Hsep as [[_ ->] | [_ ->]]; discriminate Hp].
  rewrite (Hre p eq_refl).
  assert (Hpat : exists aY am ad aH aM aS,
             directive "Y" = Some aY /\ directive "m" = Some am
             /\ directive "d" = Some ad /\ directive "H" = Some aH
             /\ directive "M" = Some aM /\ directive "S" = Some aS)
    by (repeat eexists; reflexivity).
  destruct Hpat as (aY & am & ad & aH & aM & aS & EY & Em & Ed & EH & EM & ES).
  unfold field. cbn [group Ascii.eqb Bool.eqb].
  rewrite (field_ok_int "Y" 4 y _ (field_Y y ltac:(lia)) EY).
  rewrite (proj1 (proj2 (loose_m_slash m Hm pm am EmptyString Em))).
  rewrite (proj1 (proj2 (loose_d d Hd pd ad EmptyString Ed))).
  rewrite (proj1 (proj2 (loose_H H HH pH aH EmptyString EH))).
  rewrite (proj1 (proj2 (loose_M M HM pM aM EmptyString EM))).
  rewrite (proj2 (loose_S S HS pS aS ES)).
  by apply new_valid.
Qed.

End Loose.

(** X8: the month, the day, the hour, the minute and the second may each
    be written without the leading zero ([2024/9/4 7:05:3]); the result is
    the ISO text with every field on two digits. *)
Theorem serialize_pads_fields (pm pd pH pM pS : bool) (y m d H M S : Z) :
  valid_fields y m d H M S ->
  fst (TimestampSerializer.serialize (loose_text "/" pm pd pH pM pS y m d H M S)
         TimestampSerializer.initial)
  = inr (iso_text y m d H M S)
  /\ fst (TimestampSerializer.serialize (loose_text "-" pm pd pH pM pS y m d H M S)
            TimestampSerializer.initial)
     = inr (iso_text y m d H M S).
Proof.
  intros Hv. rewrite !serialize_parse.
  cbn [TimestampSerializer.TIMESTAMP_FORMATS TimestampSerializer.initial
       TimestampSerializer.parse_loop fst].
  rewrite (strptime_loose "/" "%Y/%m/%d %H:%M:%S") by auto.
  rewrite (strptime_loose "-" "%Y-%m-%d %H:%M:%S") by auto.
  assert (Hslash : datetime.strptime (loose_text "-" pm pd pH pM pS y m d H M S)
                     "%Y/%m/%d %H:%M:%S" = None).
  { unfold loose_text. rewrite string_app_cons, string_app_nil_l.
    apply strptime_slash_separator; [unfold valid_fields in Hv; lia | reflexivity]. }
  rewrite Hslash.
  by rewrite (isoformat_iso_text (datetime.mk y m d H M S 0) eq_refl).
Qed.

Lemma serialize_pads_fields_witness :
  fst (TimestampSerializer.serialize "2024/9/4 7:05:3" TimestampSerializer.initial)
  = inr "2024-09-04T07:05:03"
  /\ fst (TimestampSerializer.serialize "2024-9-4 7:05:3" TimestampSerializer.initial)
     = inr "2024-09-04T07:05:03".
Proof.
  apply (serialize_pads_fields false false false true false 2024 9 4 7 5 3).
  unfold valid_fields; vm_compute; intuition discriminate.
Defined.

(** ** More on the local connector *)

Section LocalMore.

Import local.



Lemma getitem_elem_of {A} (l : list A) (v : value) (x : A) :
  getitem l v = inr x -> x ∈ l.
Proof.
  unfold getitem.
  assert (Hat : forall z,
             (if (z <? - PY_SSIZE_T_MAX - 1) || (PY_SSIZE_T_MAX <? z)
              then inl (IndexError "cannot fit 'int' into an index-sized integer")
              else
              let n := Z.of_nat (length l) in
              let j := if z <? 0 then z + n else z in
              if (0 <=? j) && (j <? n)
              then match l !! Z.to_nat j with
                   | Some x => inr x
                   | None => inl (IndexError "list index out of range")
                   end
              else inl (IndexError "list index out of range")) = inr x -> x ∈ l).
  { intros z. destruct (_ || _); [discriminate|].
    cbv zeta. destruct (_ && _); [|discriminate].
    destruct (l !! _) as [x'|] eqn:E; [|discriminate].
    intros [= <-]. by eapply list_elem_of_lookup_2. }
  destruct v as [| b | z | s]; try discriminate; apply Hat.
Qed.

Lemma source_rows_have_id row :
  row ∈ SOURCE_DATA -> is_Some (row !! "id") /\ is_Some (row !! "message").
Proof.
  unfold SOURCE_DATA. rewrite !elem_of_cons, elem_of_nil.
  intros [-> | [-> | [-> | []]]]; split; vm_compute; eauto.
Qed.

End LocalMore.



(** X10: a cursor that is a string or [None] makes the generator raise a
    [TypeError] before it yields anything. *)
Theorem local_update_cursor_type (configuration state : gmap string value)
    (v : value) :
  state !! "cursor" = Some v ->
  (exists s, v = VStr s) \/ v = VNone ->
  let run := local.update configuration state in
  Gen.yielded run = []
  /\ exists msg, Gen.outcome run = inl (TypeError msg).
Proof.
  intros Hc Hv run. unfold run. rewrite update_run, Hc.
  destruct Hv as [[s ->] | ->]; (split; [reflexivity | eexists; reflexivity]).
Qed.

Lemma local_update_cursor_type_witness :
  Gen.yielded (local.update ∅ {[ "cursor" := VStr "1" ]}) = []
  /\ exists msg,
       Gen.outcome (local.update ∅ {[ "cursor" := VStr "1" ]}) = inl (TypeError msg).
Proof.
  apply (local_update_cursor_type ∅ {[ "cursor" := VStr "1" ]} (VStr "1"));
    [reflexivity | left; by exists "1"].
Defined.

(** X11: started from the empty state of a first sync and fed each time
    the state the sync before checkpointed, sync number [k] (from 0)
    upserts row [k] of [SOURCE_DATA], for every [k] below its length [L];
    sync number [L] raises, so [L + 1] syncs never complete. *)
Theorem local_syncs_walk_source (configuration : gmap string value) (k : nat) :
  (k < length local.SOURCE_DATA)%nat ->
  (exists st row,
     local_syncs configuration k ∅ = Some st
     /\ local.SOURCE_DATA !! k = Some row
     /\ Gen.yielded (local.update configuration st)
        = [upsert "hello_world" (Mapping row);
           checkpoint {[ "cursor" := VInt (Z.of_nat k + 1) ]}]
     /\ local_syncs configuration (S k) ∅
        = Some {[ "cursor" := VInt (Z.of_nat k + 1) ]})
  /\ local_syncs configuration (S (length local.SOURCE_DATA)) ∅ = None.
Proof.
  intros Hk. split.
  - repeat first
      [ (simpl in Hk; lia)
      | destruct k as [|k];
        [ eexists _, _; repeat split; vm_compute; reflexivity | ] ].
  - vm_compute. reflexivity.
Qed.

Lemma local_syncs_walk_source_witness :
  local_syncs ∅ 3 ∅ = Some {[ "cursor" := VInt 3 ]}
  /\ local_syncs ∅ 4 ∅ = None.
Proof.
  destruct (local_syncs_walk_source ∅ 2 ltac:(simpl; lia))
    as [(st & row & _ & _ & _ & H3) H4].
  split; [exact H3 | exact H4].
Defined.

(** X12: the local [update] never changes the dict it received as
    [state], and the state it checkpoints holds the key ["cursor"] only:
    other keys of the incoming state are not carried over. *)
Theorem local_update_frame (configuration state : gmap string value) :
  let run := local.update configuration state in
  Gen.store run = state
  /\ forall st, checkpoint st ∈ Gen.yielded run ->
       is_Some (st !! "cursor")
       /\ forall k, k <> "cursor" -> st !! k = None.
Proof.
  cbv zeta. rewrite update_run.
  destruct (local.getitem _ _) as [e|row]; [|destruct (local.add1 _) as [e|next]];
    (split; [reflexivity|]); intros st; cbn [Gen.yielded fst];
    rewrite ?elem_of_cons, ?elem_of_nil; intros Hin;
    repeat match goal with H : _ \/ _ |- _ => destruct H end;
    try discriminate; try done.
  match goal with H : checkpoint _ = checkpoint _ |- _ => injection H as -> end.
  split.
  - rewrite lookup_singleton_eq. eauto.
  - intros k Hk. by rewrite lookup_singleton_ne.
Qed.

(** X13: every operation the local [update] yields fits the schema the
    connector declares: an upsert goes to table ["hello_world"] with a row
    that has the primary key ["id"]. *)
Theorem local_update_fits_schema (configuration state : gmap string value) :
  Forall (fits (local.schema configuration))
         (Gen.yielded (local.update configuration state)).
Proof.
  rewrite update_run.
  destruct (local.getitem _ _) as [e|row] eqn:Hg; [constructor|].
  assert (Hfit : fits (local.schema configuration) (upsert "hello_world" (Mapping row))).
  { apply getitem_elem_of, source_rows_have_id in Hg as [Hid _].
    eexists. split; [apply list_elem_of_here|]. split; [reflexivity|].
    by repeat constructor. }
  destruct (local.add1 _); cbn [Gen.yielded fst]; repeat constructor; exact Hfit.
Qed.

(** ** More on the key-based replication connector *)

Section KeyBasedMore.

Import datetime.

#[local] Arguments isdecimal : simpl never.

Lemma dt2str_fields (a b : datetime.aware) :
  whole_second (fields a) = whole_second (fields b) ->
  key_based_replication.dt2str a = key_based_replication.dt2str b.
Proof.
  rewrite !dt2str_text. unfold whole_second. by intros [= -> -> -> -> -> ->].
Qed.

(** A year printed on fewer than four digits is not read by [%Y]. *)
Lemma short_year_no_match s rest :
  (String.length s < 4)%nat ->
  match_seq [AnyDigit; AnyDigit; AnyDigit; AnyDigit] (s +:+ String "-" rest) = None.
Proof.
  intros Hl. assert (Hd : isdecimal "-" = false) by reflexivity.
  destruct s as [|a [|b [|c [|d s]]]]; [..|simpl in Hl; lia];
    rewrite ?string_app_cons, ?string_app_nil_l;
    cbn [match_seq cclass_match];
    repeat first
      [ rewrite Hd
      | match goal with |- context [isdecimal ?x] => destruct (isdecimal x) end ];
    reflexivity.
Qed.

Lemma strptime_dt2str_short_year (a : datetime.aware) :
  valid (fields a) -> year (fields a) < 1000 ->
  strptime (key_based_replication.dt2str a) key_based_replication.timestamp_format
  = None.
Proof.
  intros Hv Hy. apply valid_valid_fields in Hv. destruct Hv as (Hy1 & _).
  pose proof (year_printed (year (fields a)) ltac:(lia)) as Hok.
  unfold year_printed_ok in Hok.
  rewrite (proj2 (Z.leb_gt 1000 _)) in Hok by lia. apply Nat.ltb_lt in Hok.
  rewrite dt2str_text. unfold strptime, key_based_replication.timestamp_format.
  set (p := pattern false _). vm_compute in p. subst p. cbv iota.
  unfold re_match. rewrite !string_app_cons, !string_app_nil_l.
  cbn [match_atoms match_alts].
  by rewrite short_year_no_match.
Qed.

Lemma upsert_of_fits configuration r :
  fits_exactly (key_based_replication.schema configuration)
               (key_based_replication.upsert_of r).
Proof.
  eexists. split; [apply list_elem_of_here|]. split; [reflexivity|]. split.
  - repeat constructor. cbn [Schema.primary_key key_based_replication.schema].
    rewrite lookup_insert_eq. eauto.
  - cbn [Schema.columns key_based_replication.schema].
    rewrite !dom_insert_L, ?dom_singleton_L, ?dom_empty_L. reflexivity.
Qed.

End KeyBasedMore.

(** X14: when the database raises, the exception ends the generator of
    the key-based replication connector before any operation: nothing is
    checkpointed and the state dict is left as it was. *)
Theorem key_based_replication_database_error
    (fetchall : string -> result (list key_based_replication.row))
    (configuration state : gmap string value) (e : exn) :
  fetchall (key_based_replication.query (incoming_last_synced state)) = inl e ->
  key_based_replication.update fetchall configuration state = ([], inl e, state).
Proof. intros He. by rewrite kbr_update_run, He. Qed.

Lemma key_based_replication_database_error_witness :
  key_based_replication.update
    (fun _ => inl (DatabaseError "IO Error: cannot open file source_warehouse.db"))
    ∅ {[ "last_synced" := VStr "2024-02-01T00:00:00Z" ]}
  = ([], inl (DatabaseError "IO Error: cannot open file source_warehouse.db"),
     {[ "last_synced" := VStr "2024-02-01T00:00:00Z" ]}).
Proof.
  apply (key_based_replication_database_error
           (fun _ => inl (DatabaseError "IO Error: cannot open file source_warehouse.db"))).
  reflexivity.
Defined.

(** X15: a sync that finds no row yields one checkpoint only; if the
    state already had ["last_synced"] the checkpointed state is the
    incoming state, unchanged, and if it had not, it is the incoming state
    with the default cursor added. *)
Theorem key_based_replication_nothing_new
    (fetchall : string -> result (list key_based_replication.row))
    (configuration state : gmap string value) :
  fetchall (key_based_replication.query (incoming_last_synced state)) = inr [] ->
  let run := key_based_replication.update fetchall configuration state in
  (forall v, state !! "last_synced" = Some v ->
     run = ([checkpoint state], inr tt, state))
  /\ (state !! "last_synced" = None ->
      run = ([checkpoint (<[ "last_synced" := VStr "2024-01-01T00:00:00Z" ]> state)],
             inr tt,
             <[ "last_synced" := VStr "2024-01-01T00:00:00Z" ]> state)).
Proof.
  intros Hq run. unfold run. rewrite kbr_update_run, Hq. cbv zeta.
  unfold final_last_synced, incoming_last_synced. cbn [last map app].
  split.
  - intros v Hv. rewrite Hv. by rewrite insert_id.
  - intros Hn. by rewrite Hn.
Qed.

Lemma key_based_replication_nothing_new_witness :
  key_based_replication.update (fun _ => inr []) ∅
    {[ "last_synced" := VStr "2024-03-16T16:40:29Z" ]}
  = ([checkpoint {[ "last_synced" := VStr "2024-03-16T16:40:29Z" ]}], inr tt,
     {[ "last_synced" := VStr "2024-03-16T16:40:29Z" ]}).
Proof.
  apply (proj1 (key_based_replication_nothing_new (fun _ => inr []) ∅
                  {[ "last_synced" := VStr "2024-03-16T16:40:29Z" ]} eq_refl)
           (VStr "2024-03-16T16:40:29Z")).
  reflexivity.
Defined.



(** X17: [dt2str] prints the local fields of a datetime to the second
    and drops the microseconds and the UTC offset.  For a year of four
    digits, parsing the result with [timestamp_format] gives those fields
    back, and two datetimes have the same string exactly when their fields
    agree to the second; for a year below 1000, printed without padding,
    the result is not read back. *)
Theorem dt2str_round_trip (a b : datetime.aware) :
  datetime.valid (datetime.fields a) -> datetime.valid (datetime.fields b) ->
  (1000 <= datetime.year (datetime.fields a) ->
   datetime.strptime (key_based_replication.dt2str a)
     key_based_replication.timestamp_format
   = Some (datetime.whole_second (datetime.fields a)))
  /\ (datetime.year (datetime.fields a) < 1000 ->
      datetime.strptime (key_based_replication.dt2str a)
        key_based_replication.timestamp_format
      = None)
  /\ (1000 <= datetime.year (datetime.fields a) ->
      1000 <= datetime.year (datetime.fields b) ->
      (key_based_replication.dt2str a = key_based_replication.dt2str b
       <-> datetime.whole_second (datetime.fields a)
           = datetime.whole_second (datetime.fields b))).
Proof.
  intros Ha Hb. split; [by apply strptime_dt2str|].
  split; [by apply strptime_dt2str_short_year|].
  intros Hya Hyb. split.
  - intros E. pose proof (strptime_dt2str a Ha Hya) as Pa.
    rewrite E, (strptime_dt2str b Hb Hyb) in Pa. congruence.
  - apply dt2str_fields.
Qed.

Lemma dt2str_round_trip_witness :
  let a := datetime.Aware (datetime.mk 2024 1 31 18 4 39 120000) (-18000) in
  let b := datetime.Aware (datetime.mk 2024 1 31 18 4 39 0) 0 in
  let c := datetime.Aware (datetime.mk 999 5 6 7 8 9 0) 0 in
  datetime.strptime (key_based_replication.dt2str a)
    key_based_replication.timestamp_format
  = Some (datetime.mk 2024 1 31 18 4 39 0)
  /\ key_based_replication.dt2str a = key_based_replication.dt2str b
  /\ datetime.strptime (key_based_replication.dt2str c)
       key_based_replication.timestamp_format
     = None.
Proof.
  intros a b c.
  assert (Ha : datetime.valid (datetime.fields a)) by (vm_compute; reflexivity).
  assert (Hb : datetime.valid (datetime.fields b)) by (vm_compute; reflexivity).
  assert (Hc : datetime.valid (datetime.fields c)) by (vm_compute; reflexivity).
  destruct (dt2str_round_trip a b Ha Hb) as (Hrt & _ & Hiff).
  destruct (dt2str_round_trip c c Hc Hc) as (_ & Hshort & _).
  split; [apply Hrt; vm_compute; discriminate|].
  split; [apply (Hiff ltac:(vm_compute; discriminate) ltac:(vm_compute; discriminate));
          reflexivity|].
  apply Hshort. vm_compute. reflexivity.
Defined.

(** X18: whatever rows the database returns, every upsert of the
    key-based replication connector goes to the table ["customers"] of
    its schema, with exactly the five declared columns, the primary key
    among them. *)
Theorem key_based_replication_fits_schema
    (fetchall : string -> result (list key_based_replication.row))
    (configuration state : gmap string value) :
  Forall (fits_exactly (key_based_replication.schema configuration))
         (Gen.yielded (key_based_replication.update fetchall configuration state)).
Proof.
  rewrite kbr_update_run.
  destruct (fetchall _) as [e|rows]; [constructor|].
  cbv zeta. unfold Gen.yielded. cbn [fst].
  apply Forall_app. split; [|by repeat constructor].
  apply Forall_map, Forall_forall. intros r _. apply upsert_of_fits.
Qed.

(** ** The connector without a created-at timestamp *)

(** X19: whatever the configuration and the state, this [update] yields
    the same two upserts into table ["user"], each with the composite
    primary key of the schema, and with distinct keys; it never
    checkpoints and never touches the state, so every sync starts from the
    state of the one before and emits the same rows. *)
Theorem records_update_constant (configuration state : gmap string value) :
  let run := records_with_no_created_at_timestamp.update configuration state in
  run = ([upsert "user" (Mapping records_with_no_created_at_timestamp.row_1);
          upsert "user" (Mapping records_with_no_created_at_timestamp.row_2)],
         inr tt, state)
  /\ checkpointed (Gen.yielded run) state = state
  /\ Forall (fits (records_with_no_created_at_timestamp.schema configuration))
            (Gen.yielded run)
  /\ records_with_no_created_at_timestamp.row_1 !! "id"
     <> records_with_no_created_at_timestamp.row_2 !! "id".
Proof.
  cbv zeta. split; [reflexivity|]. split; [reflexivity|]. split.
  - repeat constructor;
      (eexists; split; [apply list_elem_of_here|]; split; [reflexivity|];
       repeat constructor; vm_compute; eauto).
  - vm_compute. discriminate.
Qed.
